(** * chirp/wxui/query_sources.py: validators, query worker and query dialogs

    A shallow embedding of the control logic of [query_sources.py]:
    the field validators, the background [QueryThread], the
    [QuerySourceDialog] controller and the cascading selectors of the
    RepeaterBook and RadioReference dialogs.

    Python text is a sequence of Unicode code points; user-visible
    messages built from ASCII literals are kept as [string].  Calls
    into wxPython and the Python builtins ([float], [str.isdigit],
    [%]-formatting) are modelled next to the code that uses them. *)

From Stdlib Require Import ZArith NArith List String Ascii Bool Lia.
From Stdlib Require Import Numbers.DecimalString.
From Stdlib Require Numbers.DecimalZ Numbers.DecimalPos.
From Stdlib Require Import Floats.SpecFloat.
Import ListNotations.

Set Implicit Arguments.

(** ** Python values used by the module *)

Module Py.

(** A [str]: the list of its code points. *)
Definition ustr := list N.

(** An ASCII literal as a [str]. *)
Fixpoint u (s : string) : ustr :=
  match s with
  | EmptyString => []
  | String c s' => N_of_ascii c :: u s'
  end.

Fixpoint ustr_eqb (a b : ustr) : bool :=
  match a, b with
  | [], [] => true
  | x :: a', y :: b' => N.eqb x y && ustr_eqb a' b'
  | _, _ => false
  end.

Fixpoint startswith (p s : ustr) : bool :=
  match p, s with
  | [], _ => true
  | x :: p', y :: s' => N.eqb x y && startswith p' s'
  | _ :: _, [] => false
  end.

(** [needle in haystack] on [str]. *)
Fixpoint contains (needle haystack : ustr) : bool :=
  startswith needle haystack ||
  match haystack with
  | [] => false
  | _ :: rest => contains needle rest
  end.

(** A [string] stands for a [str] all of whose characters are below
    U+0100, one character per byte.

    [repr(s)] for such a [str]: apostrophes around the text, or double
    quotes when the text has an apostrophe and no double quote; the
    quote in use and the backslash are escaped, tab, line feed and
    carriage return are written with their letters, and every other
    character that is not printable is written in hexadecimal. *)
Definition hex_digit (n : N) : ascii :=
  ascii_of_N (if N.ltb n 10 then 48 + n else 87 + n)%N.

Definition isprintable_char (c : N) : bool :=
  (N.leb 32 c && N.ltb c 127)
  || (N.ltb 160 c && negb (N.eqb c 173)).

Definition apostrophe : ascii := ascii_of_N 39.
Definition double_quote : ascii := ascii_of_N 34.
Definition backslash : ascii := ascii_of_N 92.

Definition escaped (c : ascii) : string :=
  String backslash (String c EmptyString).

Definition repr_char (quote c : ascii) : string :=
  let n := N_of_ascii c in
  if (Ascii.eqb c quote || Ascii.eqb c backslash)%bool then escaped c
  else if N.eqb n 9 then escaped "t"
  else if N.eqb n 10 then escaped "n"
  else if N.eqb n 13 then escaped "r"
  else if isprintable_char n then String c EmptyString
  else String backslash
         (String "x"
            (String (hex_digit (N.div n 16))
               (String (hex_digit (N.modulo n 16)) EmptyString))).

Fixpoint has_char (c : ascii) (s : string) : bool :=
  match s with
  | EmptyString => false
  | String x s' => (Ascii.eqb x c || has_char c s')%bool
  end.

Definition repr_str (s : string) : string :=
  let quote :=
    if (has_char apostrophe s && negb (has_char double_quote s))%bool
    then double_quote else apostrophe in
  String quote
    (String.concat EmptyString
       (map (repr_char quote) (list_ascii_of_string s))
     ++ String quote EmptyString)%string.

(** [str(n)] and the [%i] conversion for an [int]. *)
Definition str_of_int (n : Z) : string :=
  NilZero.string_of_int (Z.to_int n).

(** The exception classes that matter here.  [SystemExit],
    [KeyboardInterrupt] and [GeneratorExit] derive from
    [BaseException] only; every other class derives from
    [Exception]. *)
Inductive exc_class :=
| ValueError | AssertionError | KeyError | IndexError | AttributeError
| TypeError | RuntimeError | OSError | OtherException
| SystemExit | KeyboardInterrupt | GeneratorExit.

Definition isinstance_Exception (c : exc_class) : bool :=
  match c with
  | SystemExit | KeyboardInterrupt | GeneratorExit => false
  | _ => true
  end.

(** An exception object: its class and its [str(e)]. *)
Record exn := Exn { exn_class : exc_class; exn_str : string }.

(** Outcome of a call that may raise. *)
Inductive result (A : Type) :=
| Ok (a : A)
| Raise (e : exn).
Arguments Ok {A} a.
Arguments Raise {A} e.

Definition bind {A B} (r : result A) (k : A -> result B) : result B :=
  match r with
  | Ok a => k a
  | Raise e => Raise e
  end.

End Py.

Notation "x <- c1 ;; c2" := (Py.bind c1 (fun x => c2))
  (at level 61, c1 at next level, right associativity).

(** ** Unicode character properties used by [str.isdigit] and [float]

    The tables are those of Unicode 14.0, the character database of
    CPython 3.11, over all seventeen planes. *)

Module Unicode.

Open Scope N_scope.

(** First code point of every block of ten decimal digits
    (general category Nd). *)
Definition decimal_blocks : list N :=
  [ 0x0030; 0x0660; 0x06F0; 0x07C0; 0x0966; 0x09E6; 0x0A66; 0x0AE6;
    0x0B66; 0x0BE6; 0x0C66; 0x0CE6; 0x0D66; 0x0DE6; 0x0E50; 0x0ED0;
    0x0F20; 0x1040; 0x1090; 0x17E0; 0x1810; 0x1946; 0x19D0; 0x1A80;
    0x1A90; 0x1B50; 0x1BB0; 0x1C40; 0x1C50; 0xA620; 0xA8D0; 0xA900;
    0xA9D0; 0xA9F0; 0xAA50; 0xABF0; 0xFF10;
    0x104A0; 0x10D30; 0x11066; 0x110F0; 0x11136; 0x111D0; 0x112F0;
    0x11450; 0x114D0; 0x11650; 0x116C0; 0x11730; 0x118E0; 0x11950;
    0x11C50; 0x11D50; 0x11DA0; 0x16A60; 0x16AC0; 0x16B50;
    0x1D7CE; 0x1D7D8; 0x1D7E2; 0x1D7EC; 0x1D7F6;
    0x1E140; 0x1E2F0; 0x1E950; 0x1FBF0 ].

(** Inclusive ranges of the characters that are digits without being
    decimal digits (superscripts, subscripts, circled digits, ...). *)
Definition other_digit_ranges : list (N * N) :=
  [ (0x00B2, 0x00B3); (0x00B9, 0x00B9); (0x1369, 0x1371);
    (0x19DA, 0x19DA); (0x2070, 0x2070); (0x2074, 0x2079);
    (0x2080, 0x2089); (0x2460, 0x2468); (0x2474, 0x247C);
    (0x2488, 0x2490); (0x24EA, 0x24EA); (0x24F5, 0x24FD);
    (0x24FF, 0x24FF); (0x2776, 0x277E); (0x2780, 0x2788);
    (0x278A, 0x2792);
    (0x10A40, 0x10A43); (0x10E60, 0x10E68); (0x11052, 0x1105A);
    (0x1F100, 0x1F10A) ].

(** Inclusive ranges of the whitespace characters. *)
Definition space_ranges : list (N * N) :=
  [ (0x0009, 0x000D); (0x001C, 0x0020); (0x0085, 0x0085);
    (0x00A0, 0x00A0); (0x1680, 0x1680); (0x2000, 0x200A);
    (0x2028, 0x2029); (0x202F, 0x202F); (0x205F, 0x205F);
    (0x3000, 0x3000) ].

Definition in_range (c : N) (r : N * N) : bool :=
  (fst r <=? c) && (c <=? snd r).

(** [Py_UNICODE_TODECIMAL]: the decimal value of [c], if it has one. *)
Fixpoint decimal_in (blocks : list N) (c : N) : option N :=
  match blocks with
  | [] => None
  | b :: rest =>
      if (b <=? c) && (c <=? b + 9) then Some (c - b)
      else decimal_in rest c
  end.

Definition todecimal (c : N) : option N := decimal_in decimal_blocks c.

(** [Py_UNICODE_ISDIGIT] *)
Definition isdigit_char (c : N) : bool :=
  match todecimal c with
  | Some _ => true
  | None => existsb (in_range c) other_digit_ranges
  end.

(** [Py_UNICODE_ISSPACE] *)
Definition isspace_char (c : N) : bool := existsb (in_range c) space_ranges.

(** ['0' <= c <= '9'] *)
Definition is_ascii_digit (c : N) : bool := (48 <=? c) && (c <=? 57).

End Unicode.

(** ** The builtins [str.isdigit] and [float] *)

Module Builtins.

Import Py Unicode.
Open Scope N_scope.

(** [s.isdigit()]: every character is a digit and there is at least
    one character. *)
Definition isdigit (s : ustr) : bool :=
  match s with
  | [] => false
  | _ => forallb isdigit_char s
  end.

(** A Python [float] is an IEEE 754 binary64 number. *)
Definition pyfloat := spec_float.

Definition prec : Z := 53.
Definition emax : Z := 1024.

(** [float(n)] for an [int]; exact for the bounds used here. *)
Definition float_of_int (n : Z) : pyfloat := binary_normalize prec emax n 0 false.

(** The correctly rounded value of [(-1)^neg * m * 10^e]. *)
Definition float_of_decimal (neg : bool) (m : N) (e : Z) : pyfloat :=
  match m with
  | N0 => S754_zero neg
  | Npos p =>
      match e with
      | Zneg k =>
          let '(q, e', loc) :=
            SFdiv_core_binary prec emax (Zpos p) 0 (Z.pow 10 (Zpos k)) 0 in
          binary_round_aux prec emax neg q e' loc
      | _ => binary_round prec emax neg (Z.to_pos (Zpos p * Z.pow 10 e)) 0
      end
  end.

(** Non-ASCII decimal digits and whitespace are first mapped to
    ASCII; the first character that is neither becomes ['?'] and
    ends the text. *)
Fixpoint transform_decimal_and_space_to_ascii (s : ustr) : ustr :=
  match s with
  | [] => []
  | c :: rest =>
      if c <? 127 then c :: transform_decimal_and_space_to_ascii rest
      else if isspace_char c then 32 :: transform_decimal_and_space_to_ascii rest
      else match todecimal c with
           | Some d => (48 + d) :: transform_decimal_and_space_to_ascii rest
           | None => [63]
           end
  end.

(** A single underscore is allowed between two digits. *)
Fixpoint strip_underscores (prev : N) (s : ustr) : option ustr :=
  match s with
  | [] => if prev =? 95 then None else Some []
  | c :: rest =>
      if c =? 95 then
        if is_ascii_digit prev then strip_underscores c rest else None
      else if (prev =? 95) && negb (is_ascii_digit c) then None
      else option_map (cons c) (strip_underscores c rest)
  end.

(** [Py_ISSPACE] *)
Definition is_ascii_space (c : N) : bool :=
  (c =? 32) || ((9 <=? c) && (c <=? 13)).

Fixpoint lstrip (s : ustr) : ustr :=
  match s with
  | c :: rest => if is_ascii_space c then lstrip rest else s
  | [] => []
  end.

Definition strip (s : ustr) : ustr := rev (lstrip (rev (lstrip s))).

Fixpoint span_digits (s : ustr) : ustr * ustr :=
  match s with
  | c :: rest =>
      if is_ascii_digit c then
        let '(ds, r) := span_digits rest in (c :: ds, r)
      else ([], s)
  | [] => ([], [])
  end.

Definition digits_value (ds : ustr) : N :=
  fold_left (fun acc d => 10 * acc + (d - 48)) ds 0.

(** Leading sign: [(negative, rest)]. *)
Definition take_sign (s : ustr) : bool * ustr :=
  match s with
  | 45 :: rest => (true, rest)
  | 43 :: rest => (false, rest)
  | _ => (false, s)
  end.

Definition lower (c : N) : N :=
  if (65 <=? c) && (c <=? 90) then c + 32 else c.

(** [inf], [infinity] and [nan], in any letter case. *)
Definition parse_inf_or_nan (neg : bool) (s : ustr) : option pyfloat :=
  let l := map lower s in
  if ustr_eqb l (u "inf") || ustr_eqb l (u "infinity")
  then Some (S754_infinity neg)
  else if ustr_eqb l (u "nan") then Some S754_nan
  else None.

(** The exponent part: empty, or [e]/[E], an optional sign and at
    least one digit, up to the end of the text. *)
Definition parse_exponent (s : ustr) : option Z :=
  match s with
  | [] => Some 0%Z
  | c :: rest =>
      if (c =? 101) || (c =? 69) then
        let '(neg, r) := take_sign rest in
        match span_digits r with
        | ((_ :: _) as ds, []) =>
            let v := Z.of_N (digits_value ds) in
            Some (if neg then Z.opp v else v)
        | _ => None
        end
      else None
  end.

(** Digits with an optional point and an optional exponent; at least
    one digit in the mantissa. *)
Definition parse_decimal (neg : bool) (s : ustr) : option pyfloat :=
  let '(ip, r1) := span_digits s in
  let '(fp, r2) :=
    match r1 with
    | 46 :: r => span_digits r
    | _ => ([], r1)
    end in
  match ip ++ fp with
  | [] => None
  | ds =>
      match parse_exponent r2 with
      | Some e =>
          Some (float_of_decimal neg (digits_value ds)
                  (e - Z.of_nat (List.length fp)))
      | None => None
      end
  end.

(** [float(s)] for a [str]: [None] stands for [ValueError]. *)
Definition float (s : ustr) : option pyfloat :=
  match strip_underscores 0 (transform_decimal_and_space_to_ascii s) with
  | None => None
  | Some t =>
      let '(neg, body) := take_sign (strip t) in
      match parse_decimal neg body with
      | Some v => Some v
      | None => parse_inf_or_nan neg body
      end
  end.

(** [v >= n] and [v <= n] for a float [v] and an int [n]; false for
    a NaN. *)
Definition float_ge_int (v : pyfloat) (n : Z) : bool := SFleb (float_of_int n) v.
Definition float_le_int (v : pyfloat) (n : Z) : bool := SFleb v (float_of_int n).

End Builtins.

(** ** The parts of wxPython the module relies on *)

Module Wx.

Import Py.

Definition ID_OK : Z := 5100.
Definition ID_CANCEL : Z := 5101.

(** The two background colours the module sets:
    [wx.SystemSettings.GetColour(wx.SYS_COLOUR_WINDOW)] and ['pink']. *)
Inductive Colour := SYS_COLOUR_WINDOW | pink.

Record TextCtrl := {
  GetValue : ustr;
  GetBackgroundColour : Colour
}.

Definition SetBackgroundColour (c : Colour) (t : TextCtrl) : TextCtrl :=
  {| GetValue := GetValue t; GetBackgroundColour := c |}.

Definition SetValue (v : ustr) (t : TextCtrl) : TextCtrl :=
  {| GetValue := v; GetBackgroundColour := GetBackgroundColour t |}.

(** What a call of [Validator.Validate] does to the user interface:
    the value it returns, the text control afterwards, whether
    [SetFocus] was called on it, and the text of the [wx.MessageBox]
    it showed, if any. *)
Record validation := {
  valid : bool;
  window : TextCtrl;
  focused : bool;
  message_box : option string
}.

(** A [wx.Choice]: its items and the index of the selected one
    ([None] for [wx.NOT_FOUND]). *)
Record Choice := {
  GetItems : list string;
  GetSelection : option nat
}.

(** [SetItems] and [Clear] drop the selection. *)
Definition SetItems (items : list string) (c : Choice) : Choice :=
  {| GetItems := items; GetSelection := None |}.

Definition Clear (c : Choice) : Choice :=
  {| GetItems := []; GetSelection := None |}.

Definition Append (item : string) (c : Choice) : Choice :=
  {| GetItems := GetItems c ++ [item]; GetSelection := GetSelection c |}.

Fixpoint FindString (s : string) (items : list string) : option nat :=
  match items with
  | [] => None
  | x :: rest =>
      if String.eqb x s then Some O
      else option_map S (FindString s rest)
  end.

(** [SetStringSelection] selects the first item equal to [s] and
    leaves the selection alone when there is none. *)
Definition SetStringSelection (s : string) (c : Choice) : Choice :=
  match FindString s (GetItems c) with
  | Some i => {| GetItems := GetItems c; GetSelection := Some i |}
  | None => c
  end.

(** The selected string, or the empty string without a selection. *)
Definition GetStringSelection (c : Choice) : string :=
  match GetSelection c with
  | Some i => nth i (GetItems c) EmptyString
  | None => EmptyString
  end.

End Wx.

(** ** [NumberValidator] and its subclasses *)

Module NumberValidator.

Import Py Builtins Wx.
Open Scope string_scope.

(** The class attributes. *)
Record cls := {
  THING : string;
  MIN : Z;
  MAX : Z;
  OPTIONAL : bool
}.

Definition NumberValidator : cls :=
  {| THING := "Number"; MIN := 0; MAX := 1; OPTIONAL := true |}.

Definition LatValidator : cls :=
  {| THING := "Latitude"; MIN := -90; MAX := 90;
     OPTIONAL := OPTIONAL NumberValidator |}.

Definition LonValidator : cls :=
  {| THING := "Longitude"; MIN := -180; MAX := 180;
     OPTIONAL := OPTIONAL NumberValidator |}.

Definition DistValidator : cls :=
  {| THING := "Distance"; MIN := 0; MAX := 7000;
     OPTIONAL := OPTIONAL NumberValidator |}.

(** ['Invalid %(value)s (use decimal degrees)' % catalog] *)
Definition msg_ValueError (self : cls) : string :=
  "Invalid " ++ THING self ++ " (use decimal degrees)".

(** ['%(value)s must be between %(min)i and %(max)i' % catalog] *)
Definition msg_AssertionError (self : cls) : string :=
  THING self ++ " must be between " ++ str_of_int (MIN self)
    ++ " and " ++ str_of_int (MAX self).

(** The statements after the [try]: focus, pink background and the
    message box. *)
Definition reject (textctrl : TextCtrl) (msg : string) : validation :=
  {| valid := false;
     window := SetBackgroundColour pink textctrl;
     focused := true;
     message_box := Some msg |}.

Definition Validate (self : cls) (textctrl : TextCtrl) : validation :=
  let strvalue := GetValue textctrl in
  if match strvalue with [] => true | _ => false end && OPTIONAL self then
    {| valid := true; window := textctrl; focused := false;
       message_box := None |}
  else
    match float strvalue with
    | None => reject textctrl (msg_ValueError self)
    | Some v =>
        if float_ge_int v (MIN self) && float_le_int v (MAX self) then
          {| valid := true;
             window := SetBackgroundColour SYS_COLOUR_WINDOW textctrl;
             focused := false;
             message_box := None |}
        else reject textctrl (msg_AssertionError self)
    end.

(** The [wx.EVT_TEXT] handler bound by [SetWindow]. *)
Definition _colorchange (textctrl : TextCtrl) : TextCtrl :=
  SetBackgroundColour SYS_COLOUR_WINDOW textctrl.

End NumberValidator.

(** ** [ZipValidator] *)

Module ZipValidator.

Import Py Builtins Wx.
Open Scope string_scope.

Definition Validate (textctrl : TextCtrl) : validation :=
  let strvalue := GetValue textctrl in
  if Nat.eqb (List.length strvalue) 5 && isdigit strvalue then
    {| valid := true; window := textctrl; focused := false;
       message_box := None |}
  else
    {| valid := false; window := textctrl; focused := false;
       message_box := Some "Invalid ZIP code" |}.

End ZipValidator.

(** ** A text field with its validator *)

Module Field.

Import Py Wx.

Inductive validator :=
| Number (c : NumberValidator.cls)
| Zip.

Definition Validate (v : validator) (textctrl : TextCtrl) : validation :=
  match v with
  | Number c => NumberValidator.Validate c textctrl
  | Zip => ZipValidator.Validate textctrl
  end.

(** The handlers of [wx.EVT_TEXT]: [NumberValidator.SetWindow] binds
    [_colorchange]; [ZipValidator] inherits [SetWindow] and binds
    nothing. *)
Definition on_EVT_TEXT (v : validator) (textctrl : TextCtrl) : TextCtrl :=
  match v with
  | Number _ => NumberValidator._colorchange textctrl
  | Zip => textctrl
  end.

(** The content of the field changes to [text]: the control takes
    the new value and [wx.EVT_TEXT] is delivered. *)
Definition change (v : validator) (text : ustr) (textctrl : TextCtrl)
  : TextCtrl :=
  on_EVT_TEXT v (SetValue text textctrl).

End Field.

(** ** [QueryThread] and [QuerySourceDialog] *)

Module Query.

Import Py Wx.
Open Scope string_scope.

(** The payload of a [QueryThreadEvent]. *)
Record QueryThreadEvent := {
  status : option string;
  percent : Z
}.

(** A window below the dialog: its id, what its [Validate()] returns
    and its children. *)
#[warnings="-register-all"]
Inductive Window := {
  GetId : nat;
  Validate : bool;
  GetChildren : list Window
}.

(** The dialog as far as the controller reads and writes it. *)
Record Dialog := {
  self_window : Window;          (* the dialog's own window node *)
  ok_enabled : bool;             (* FindWindowById(wx.ID_OK) is enabled *)
  gauge : Z;                     (* self.gauge.GetValue() *)
  statusmsg : string;            (* self.statusmsg.GetLabel() *)
  modal_result : option Z;       (* the argument of EndModal, once called *)
  threads_started : nat;         (* QueryThread(...).start() calls so far *)
  posted : list QueryThreadEvent (* wx.PostEvent calls not yet delivered *)
}.

Definition set_ok_enabled (b : bool) (d : Dialog) : Dialog :=
  {| self_window := self_window d; ok_enabled := b; gauge := gauge d;
     statusmsg := statusmsg d; modal_result := modal_result d;
     threads_started := threads_started d; posted := posted d |}.

Definition gauge_SetValue (v : Z) (d : Dialog) : Dialog :=
  {| self_window := self_window d; ok_enabled := ok_enabled d; gauge := v;
     statusmsg := statusmsg d; modal_result := modal_result d;
     threads_started := threads_started d; posted := posted d |}.

Definition statusmsg_SetLabel (s : string) (d : Dialog) : Dialog :=
  {| self_window := self_window d; ok_enabled := ok_enabled d;
     gauge := gauge d; statusmsg := s; modal_result := modal_result d;
     threads_started := threads_started d; posted := posted d |}.

Definition EndModal (id : Z) (d : Dialog) : Dialog :=
  {| self_window := self_window d; ok_enabled := ok_enabled d;
     gauge := gauge d; statusmsg := statusmsg d; modal_result := Some id;
     threads_started := threads_started d; posted := posted d |}.

Definition PostEvent (e : QueryThreadEvent) (d : Dialog) : Dialog :=
  {| self_window := self_window d; ok_enabled := ok_enabled d;
     gauge := gauge d; statusmsg := statusmsg d;
     modal_result := modal_result d;
     threads_started := threads_started d; posted := posted d ++ [e] |}.

(** [_call_validations]: the value returned, and the ids of the
    windows whose [Validate()] was called, in call order.  The value
    of the recursive call is not used. *)
Fixpoint _call_validations (parent : Window) : bool * list nat :=
  (fix loop (children : list Window) : bool * list nat :=
     match children with
     | [] => (true, [])
     | child :: rest =>
         if negb (Validate child) then (false, [GetId child])
         else
           let '(_, inner) := _call_validations child in
           let '(r, later) := loop rest in
           (r, GetId child :: inner ++ later)
     end) (GetChildren parent).

(** [QuerySourceDialog.do_query]: start one [QueryThread]. *)
Definition do_query (d : Dialog) : Dialog :=
  {| self_window := self_window d; ok_enabled := ok_enabled d;
     gauge := gauge d; statusmsg := statusmsg d;
     modal_result := modal_result d;
     threads_started := S (threads_started d); posted := posted d |}.

(** [_button], for the id of the button that was pressed. *)
Definition _button (id : Z) (d : Dialog) : Dialog :=
  if Z.eqb id ID_OK then
    if negb (fst (_call_validations (self_window d))) then d
    else do_query (set_ok_enabled false d)
  else EndModal id d.

Definition status_ (s : option string) (p : Z) (d : Dialog) : Dialog :=
  PostEvent {| status := s; percent := p |} d.

Definition end_ (d : Dialog) : Dialog := status_ None 100 d.

Definition fail (reason : option string) (d : Dialog) : Dialog :=
  status_ reason 100 d.

Definition _got_status (event : QueryThreadEvent) (d : Dialog) : Dialog :=
  let d1 := gauge_SetValue (percent event) d in
  let d2 :=
    match status event with
    | None => EndModal ID_OK d1
    | Some s => statusmsg_SetLabel s d1
    end in
  if Z.eqb (percent event) 100 then set_ok_enabled true d2 else d2.

(** *** The worker *)

(** What [get_params] returns. *)
Definition params := list (string * string).

(** A call a provider makes on the status sink it is given. *)
Inductive sink_call :=
| call_send_status (s : option string) (p : Z)
| call_send_end
| call_send_fail (reason : option string).

(** One execution of [radio.do_fetch]: the calls it makes on the
    sink, then a normal return or an exception. *)
Record fetch := {
  calls : list sink_call;
  outcome : result unit
}.

(** [self.radio]: the provider's [do_fetch]. *)
Definition radio := params -> fetch.

Definition send_status (s : option string) (p : Z) (d : Dialog) : Dialog :=
  status_ s p d.
Definition send_end (d : Dialog) : Dialog := end_ d.
Definition send_fail (reason : option string) (d : Dialog) : Dialog :=
  fail reason d.

Definition perform (d : Dialog) (c : sink_call) : Dialog :=
  match c with
  | call_send_status s p => send_status s p d
  | call_send_end => send_end d
  | call_send_fail r => send_fail r d
  end.

(** The body of the [try]: the parameters are collected first, then
    the provider runs. *)
Definition try_body (r : radio) (get_params : result params) (d : Dialog)
  : Dialog * result unit :=
  match get_params with
  | Raise e => (d, Raise e)
  | Ok p => (fold_left perform (calls (r p)) d, outcome (r p))
  end.

(** [QueryThread.run]: the dialog afterwards and the exception that
    leaves [run], if any.  [except Exception] handles the instances
    of [Exception] only. *)
Definition run (r : radio) (get_params : result params) (d : Dialog)
  : Dialog * option exn :=
  match try_body r get_params d with
  | (d', Ok _) => (d', None)
  | (d', Raise e) =>
      if isinstance_Exception (exn_class e)
      then (send_fail (Some ("Failed: " ++ exn_str e)) d', None)
      else (d', Some e)
  end.

(** The event loop hands the posted events to [_got_status], oldest
    first. *)
Definition deliver (d : Dialog) : Dialog :=
  fold_left (fun d' e => _got_status e d') (posted d)
    {| self_window := self_window d; ok_enabled := ok_enabled d;
       gauge := gauge d; statusmsg := statusmsg d;
       modal_result := modal_result d;
       threads_started := threads_started d; posted := [] |}.

End Query.

(** ** The persisted configuration [CONF] *)

Module CONF.

Open Scope string_scope.

(** The stored values, newest first: section, key, value. *)
Definition t := list (string * string * string).

(** [CONF.get(key, section)]: [None] when nothing is stored. *)
Fixpoint get (key section : string) (c : t) : option string :=
  match c with
  | [] => None
  | (s, k, v) :: rest =>
      if String.eqb s section && String.eqb k key then Some v
      else get key section rest
  end.

Definition set (key value section : string) (c : t) : t :=
  (section, key, value) :: c.

Definition set_int (key : string) (value : Z) (section : string) (c : t) : t :=
  set key (Py.str_of_int value) section c.

End CONF.

(** ** [RepeaterBookQueryDialog]: country and state *)

Module RepeaterBookQueryDialog.

Import Py Wx.
Open Scope string_scope.

(** [repeaterbook.STATES]: the states of every country. *)
Definition STATES_t := list (string * list string).

(** [STATES[country]]: [None] stands for [KeyError]. *)
Fixpoint getitem (STATES : STATES_t) (country : string) : option (list string) :=
  match STATES with
  | [] => None
  | (k, states) :: rest =>
      if String.eqb k country then Some states else getitem rest country
  end.

Record Dialog := {
  _country : Choice;
  _state : Choice
}.

(** [x in states] *)
Definition mem (x : string) (l : list string) : bool :=
  existsb (String.eqb x) l.

(** [_state_selected]; the stored state is selected under the test
    [prev and prev in states]. *)
Definition _state_selected (STATES : STATES_t) (conf : CONF.t) (d : Dialog)
  : result Dialog :=
  let country := GetStringSelection (_country d) in
  match getitem STATES country with
  | None => Raise (Exn KeyError (repr_str country))
  | Some states =>
      let state := SetItems states (_state d) in
      let prev := CONF.get "state" "repeaterbook" conf in
      Ok {| _country := _country d;
            _state :=
              match prev with
              | Some p =>
                  if negb (String.eqb p "") && mem p states
                  then SetStringSelection p state
                  else state
              | None => state
              end |}
  end.

End RepeaterBookQueryDialog.

(** ** [RRQueryDialog]: province and county *)

Module RRQueryDialog.

Import Py Wx.
Open Scope string_scope.

(** [radioreference.CA_PROVINCES]: province name and id, in the order
    of the dictionary. *)
Definition CA_PROVINCES_t := list (string * Z).

(** A row of [radioreference.CA_COUNTIES]; the code reads columns 1
    (province name), 2 (county id) and 3 (county name). *)
Record county_row := {
  col0 : Z;
  prov : string;
  cid : Z;
  county : string
}.

Record tables := {
  CA_PROVINCES : CA_PROVINCES_t;
  CA_COUNTIES : list county_row
}.

(** The values [default_county] and [chosencounty] take: a county
    name, or the integer [0]. *)
Inductive county_key :=
| Name (s : string)
| Int (n : Z).

(** [county == chosencounty] for a [str] on the left. *)
Definition name_eq (name : string) (k : county_key) : bool :=
  match k with
  | Name s => String.eqb name s
  | Int _ => false
  end.

Record Dialog := {
  _provchoice : Choice;
  _countychoice : Choice;
  _loginbutton_enabled : bool;
  default_prov : option string;        (* [None]: attribute not yet set *)
  default_county : option county_key;  (* [None]: attribute not yet set *)
  _ca_county_id : option Z;            (* [None]: attribute not yet set *)
  conf : CONF.t
}.

(** The first county id whose row has the chosen name, [0] without
    one. *)
Fixpoint find_county_id (rows : list county_row) (chosencounty : county_key) : Z :=
  match rows with
  | [] => 0
  | row :: rest =>
      if name_eq (county row) chosencounty then cid row
      else find_county_id rest chosencounty
  end.

Definition _selected_county (T : tables) (chosencounty : county_key)
  (d : Dialog) : Dialog :=
  let id := find_county_id (CA_COUNTIES T) chosencounty in
  {| _provchoice := _provchoice d;
     _countychoice := _countychoice d;
     _loginbutton_enabled := _loginbutton_enabled d;
     default_prov := default_prov d;
     default_county := default_county d;
     _ca_county_id := Some id;
     conf := CONF.set_int "county" id "radioreference" (conf d) |}.

(** The first loop of [_selected_province]. *)
Fixpoint store_province (provinces : CA_PROVINCES_t) (chosenprov : string)
  (c : CONF.t) : CONF.t :=
  match provinces with
  | [] => c
  | (name, id) :: rest =>
      if String.eqb name chosenprov
      then CONF.set_int "province" id "radioreference" c
      else store_province rest chosenprov c
  end.

(** The second loop of [_selected_province]. *)
Fixpoint append_counties (rows : list county_row) (chosenprov : string)
  (c : Choice) : Choice :=
  match rows with
  | [] => c
  | x :: rest =>
      if String.eqb (prov x) chosenprov
      then append_counties rest chosenprov (Append (county x) c)
      else append_counties rest chosenprov c
  end.

(** [_selected_province]; [GetItems()[0]] raises [IndexError] on an
    empty list. *)
Definition _selected_province (T : tables) (chosenprov : string) (d : Dialog)
  : result Dialog :=
  let conf' := store_province (CA_PROVINCES T) chosenprov (conf d) in
  let choice := append_counties (CA_COUNTIES T) chosenprov
                  (Clear (_countychoice d)) in
  let d' :=
    {| _provchoice := _provchoice d;
       _countychoice := choice;
       _loginbutton_enabled := _loginbutton_enabled d;
       default_prov := default_prov d;
       default_county := default_county d;
       _ca_county_id := _ca_county_id d;
       conf := conf' |} in
  match GetItems choice with
  | [] => Raise (Exn IndexError "list index out of range")
  | first :: _ => Ok (_selected_county T (Name first) d')
  end.

(** The loops of [getconfdefaults]: the [else] belongs to the [if], so
    every row that does not match assigns the fallback. *)
Fixpoint default_prov_loop (code : option string) (provinces : CA_PROVINCES_t)
  (current : option string) : option string :=
  match provinces with
  | [] => current
  | (k, v) :: rest =>
      match code with
      | Some c =>
          if String.eqb c (str_of_int v) then Some k
          else default_prov_loop code rest (Some "BC")
      | None => default_prov_loop code rest (Some "BC")
      end
  end.

Fixpoint default_county_loop (code : option string) (rows : list county_row)
  (current : option county_key) : option county_key :=
  match rows with
  | [] => current
  | row :: rest =>
      match code with
      | Some c =>
          if String.eqb c (str_of_int (cid row)) then Some (Name (county row))
          else default_county_loop code rest (Some (Int 0))
      | None => default_county_loop code rest (Some (Int 0))
      end
  end.

(** Reading an attribute that was never assigned. *)
Definition getattr {A} (name : string) (a : option A) : result A :=
  match a with
  | Some v => Ok v
  | None =>
      Raise (Exn AttributeError
               ("'RRQueryDialog' object has no attribute '" ++ name ++ "'"))
  end.

(** [getconfdefaults]: the two loops, then the [LOG.debug] call, whose
    arguments read both attributes. *)
Definition getconfdefaults (T : tables) (d : Dialog) : result Dialog :=
  let d' :=
    {| _provchoice := _provchoice d;
       _countychoice := _countychoice d;
       _loginbutton_enabled := _loginbutton_enabled d;
       default_prov :=
         default_prov_loop (CONF.get "province" "radioreference" (conf d))
           (CA_PROVINCES T) (default_prov d);
       default_county :=
         default_county_loop (CONF.get "county" "radioreference" (conf d))
           (CA_COUNTIES T) (default_county d);
       _ca_county_id := _ca_county_id d;
       conf := conf d |} in
  _ <- getattr "default_prov" (default_prov d') ;;
  _ <- getattr "default_county" (default_county d') ;;
  Ok d'.

Definition set_provchoice (c : Choice) (d : Dialog) : Dialog :=
  {| _provchoice := c;
     _countychoice := _countychoice d;
     _loginbutton_enabled := _loginbutton_enabled d;
     default_prov := default_prov d;
     default_county := default_county d;
     _ca_county_id := _ca_county_id d;
     conf := conf d |}.

Definition set_countychoice (c : Choice) (d : Dialog) : Dialog :=
  {| _provchoice := _provchoice d;
     _countychoice := c;
     _loginbutton_enabled := _loginbutton_enabled d;
     default_prov := default_prov d;
     default_county := default_county d;
     _ca_county_id := _ca_county_id d;
     conf := conf d |}.

Definition loginbutton_Enable (b : bool) (d : Dialog) : Dialog :=
  {| _provchoice := _provchoice d;
     _countychoice := _countychoice d;
     _loginbutton_enabled := b;
     default_prov := default_prov d;
     default_county := default_county d;
     _ca_county_id := _ca_county_id d;
     conf := conf d |}.

(** [populateprov].  [SetStringSelection] takes a string: the integer
    default is refused with [TypeError]. *)
Definition populateprov (T : tables) (d : Dialog) : result Dialog :=
  let d1 := set_provchoice
              (SetItems (map fst (CA_PROVINCES T)) (_provchoice d)) d in
  d2 <- getconfdefaults T d1 ;;
  p <- getattr "default_prov" (default_prov d2) ;;
  let d3 := set_provchoice (SetStringSelection p (_provchoice d2)) d2 in
  d4 <- _selected_province T p d3 ;;
  c <- getattr "default_county" (default_county d4) ;;
  match c with
  | Int _ =>
      Raise (Exn TypeError
               "Choice.SetStringSelection(): argument 1 has unexpected type 'int'")
  | Name s =>
      let d5 := set_countychoice
                  (SetStringSelection s (_countychoice d4)) d4 in
      let d6 := _selected_county T c d5 in
      Ok (loginbutton_Enable false d6)
  end.

End RRQueryDialog.

(** ** Specification-side notions *)

Module Spec.

Import Py Wx Query.

(** Every window below [parent], at any depth, validates. *)
Fixpoint descendants_validate (parent : Window) : bool :=
  (fix all (children : list Window) : bool :=
     match children with
     | [] => true
     | child :: rest =>
         Validate child && descendants_validate child && all rest
     end) (GetChildren parent).

(** The ids of the windows below [parent], parents before their
    children and siblings in order. *)
Fixpoint descendants (parent : Window) : list nat :=
  (fix all (children : list Window) : list nat :=
     match children with
     | [] => []
     | child :: rest => GetId child :: descendants child ++ all rest
     end) (GetChildren parent).

(** The default child of a cascading selector as the specification
    words it: the persisted selection when it is among the new
    choices, otherwise the first choice. *)
Definition default_child (persisted : option string) (choices : list string)
  : option string :=
  match persisted with
  | Some p =>
      if existsb (String.eqb p) choices then Some p else hd_error choices
  | None => hd_error choices
  end.

(** The rows of the county table whose province is [chosenprov], in
    table order, by county name. *)
Definition counties_of (T : RRQueryDialog.tables) (chosenprov : string)
  : list string :=
  map RRQueryDialog.county
    (filter (fun x => String.eqb (RRQueryDialog.prov x) chosenprov)
       (RRQueryDialog.CA_COUNTIES T)).

End Spec.

(** ** Concrete dialogs and providers used in the examples *)

Module Examples.

Import Py Wx Query.
Open Scope string_scope.

Definition leaf (id : nat) (ok : bool) : Window :=
  {| GetId := id; Validate := ok; GetChildren := [] |}.

Definition dialog_of (children : list Window) : Dialog :=
  {| self_window := {| GetId := 0; Validate := true; GetChildren := children |};
     ok_enabled := true; gauge := 0; statusmsg := "";
     modal_result := None; threads_started := 0; posted := [] |}.

(** A notebook (1) that validates, holding a page (2) that does not,
    next to a gauge (3): the layout of the RadioReference dialog with
    a wrong ZIP code on its page. *)
Definition nested_failure : Dialog :=
  dialog_of
    [ {| GetId := 1; Validate := true; GetChildren := [leaf 2 false] |};
      leaf 3 true ].

(** A panel (1) with two fields (2, 3), then a gauge (4); everything
    validates. *)
Definition all_valid : Dialog :=
  dialog_of
    [ {| GetId := 1; Validate := true;
         GetChildren := [leaf 2 true; leaf 3 true] |};
      leaf 4 true ].

(** The second top-level window (2) does not validate. *)
Definition direct_failure : Dialog :=
  dialog_of [leaf 1 true; leaf 2 false; leaf 3 true].

(** A provider that reports progress and then raises [ValueError]. *)
Definition failing_radio : radio :=
  fun _ => {| calls := [call_send_status (Some "Fetching") 40];
              outcome := Raise (Exn ValueError "no such state") |}.

(** A provider that reports progress and then signals the end. *)
Definition succeeding_radio : radio :=
  fun _ => {| calls := [call_send_status (Some "Fetching") 40; call_send_end];
              outcome := Ok tt |}.

(** A provider that calls [sys.exit()]. *)
Definition exiting_radio : radio :=
  fun _ => {| calls := []; outcome := Raise (Exn SystemExit "") |}.

(** A text control holding the ASCII text [s], not marked. *)
Definition entered (s : string) : TextCtrl :=
  {| GetValue := u s; GetBackgroundColour := SYS_COLOUR_WINDOW |}.

(** Four ASCII digits followed by ARABIC-INDIC DIGIT FIVE (U+0665). *)
Definition zip_arabic_indic : TextCtrl :=
  {| GetValue := [49; 50; 51; 52; 0x0665]%N;
     GetBackgroundColour := SYS_COLOUR_WINDOW |}.

(** *** Selector tables *)

Definition STATES : RepeaterBookQueryDialog.STATES_t :=
  [ ("Canada", ["Alberta"; "Ontario"; "Quebec"]);
    ("Mexico", ["Sonora"; "Yucatan"]) ].

(** The RepeaterBook dialog with Canada selected and an empty state
    list. *)
Definition rb_dialog : RepeaterBookQueryDialog.Dialog :=
  {| RepeaterBookQueryDialog._country :=
       {| GetItems := ["Canada"; "Mexico"]; GetSelection := Some 0%nat |};
     RepeaterBookQueryDialog._state :=
       {| GetItems := []; GetSelection := None |} |}.

Definition provinces_and_counties : RRQueryDialog.tables :=
  {| RRQueryDialog.CA_PROVINCES := [("ON", 2); ("QC", 3); ("YT", 4)]%Z;
     RRQueryDialog.CA_COUNTIES :=
       [ {| RRQueryDialog.col0 := 2; RRQueryDialog.prov := "ON";
            RRQueryDialog.cid := 10; RRQueryDialog.county := "Algoma" |};
         {| RRQueryDialog.col0 := 3; RRQueryDialog.prov := "QC";
            RRQueryDialog.cid := 30; RRQueryDialog.county := "Abitibi" |};
         {| RRQueryDialog.col0 := 2; RRQueryDialog.prov := "ON";
            RRQueryDialog.cid := 20; RRQueryDialog.county := "Brant" |} ]%Z |}.

(** What a login that returns no province leaves in the tables. *)
Definition no_provinces : RRQueryDialog.tables :=
  {| RRQueryDialog.CA_PROVINCES := []; RRQueryDialog.CA_COUNTIES := [] |}.

(** The RadioReference dialog as [build_ca] leaves it before a login,
    with the stored configuration [c]. *)
Definition rr_dialog (c : CONF.t) : RRQueryDialog.Dialog :=
  {| RRQueryDialog._provchoice :=
       {| GetItems := ["Log in First"]; GetSelection := None |};
     RRQueryDialog._countychoice :=
       {| GetItems := ["Log in First"]; GetSelection := None |};
     RRQueryDialog._loginbutton_enabled := true;
     RRQueryDialog.default_prov := None;
     RRQueryDialog.default_county := None;
     RRQueryDialog._ca_county_id := None;
     RRQueryDialog.conf := c |}.

(** Ontario and its county Brant were chosen in an earlier session. *)
Definition conf_brant : CONF.t :=
  [ ("radioreference", "county", "20"); ("radioreference", "province", "2") ].

End Examples.

(** ** Reading the progress channel *)

Module Channel.

Import Py Wx Query.

(** The event a call on the status sink posts. *)
Definition event_of (c : sink_call) : QueryThreadEvent :=
  match c with
  | call_send_status s p => {| status := s; percent := p |}
  | call_send_end => {| status := None; percent := 100 |}
  | call_send_fail reason => {| status := reason; percent := 100 |}
  end.

(** [event.status is None] *)
Definition status_is_None (e : QueryThreadEvent) : bool :=
  match status e with
  | None => true
  | Some _ => false
  end.

(** [event.percent == 100] *)
Definition percent_is_100 (e : QueryThreadEvent) : bool :=
  Z.eqb (percent e) 100.

(** The text of the last event that carries one, [current] without
    such an event. *)
Fixpoint last_label (events : list QueryThreadEvent) (current : string)
  : string :=
  match events with
  | [] => current
  | e :: rest =>
      last_label rest
        match status e with
        | Some s => s
        | None => current
        end
  end.

(** The percent of the last event, [current] without an event. *)
Fixpoint last_percent (events : list QueryThreadEvent) (current : Z) : Z :=
  match events with
  | [] => current
  | e :: rest => last_percent rest (percent e)
  end.

(** [_got_status] as the step of the event loop. *)
Definition handle (d : Dialog) (e : QueryThreadEvent) : Dialog :=
  _got_status e d.

(** The events [run] adds to the queue. *)
Definition run_events (r : radio) (gp : result params) : list QueryThreadEvent :=
  match gp with
  | Raise e =>
      if isinstance_Exception (exn_class e)
      then [{| status := Some ("Failed: " ++ exn_str e)%string; percent := 100 |}]
      else []
  | Ok p =>
      map event_of (calls (r p))
        ++ match outcome (r p) with
           | Ok _ => []
           | Raise e =>
               if isinstance_Exception (exn_class e)
               then [{| status := Some ("Failed: " ++ exn_str e)%string;
                        percent := 100 |}]
               else []
           end
  end.

End Channel.

(** ** The event handlers of the province and county selectors *)

Module RRQueryDialogEvents.

Import Py Wx RRQueryDialog.
Open Scope string_scope.

(** [selected_province(event)]: the event object is [_provchoice]. *)
Definition selected_province (T : tables) (d : Dialog) : result Dialog :=
  _selected_province T (GetStringSelection (_provchoice d)) d.

(** [selected_county(event)] *)
Definition selected_county (T : tables) (d : Dialog) : Dialog :=
  _selected_county T (Name (GetStringSelection (_countychoice d))) d.

(** [code == str(v)] in [getconfdefaults], for the stored [code]. *)
Definition code_is (code : option string) (v : Z) : bool :=
  match code with
  | Some c => String.eqb c (str_of_int v)
  | None => false
  end.

End RRQueryDialogEvents.

(** ** The login of the RadioReference dialog *)

Module RRLogin.

Import Py Wx Query.
Open Scope string_scope.

(** What [RadioReferenceCAData] hands to the callback: an exception
    object, or another value. *)
Inductive login_result :=
| Failure (e : exn)
| Done.

(** The dialog with the [populateprov] calls queued by
    [wx.CallAfter]. *)
Record state := {
  dialog : Dialog;
  populateprov_queued : nat
}.

(** The callback [cb] of [_populateca]. *)
Definition cb (res : login_result) (st : state) : state :=
  match res with
  | Failure e =>
      if isinstance_Exception (exn_class e) then
        {| dialog := status_ (Some ("Failed: " ++ exn_str e)) 0 (dialog st);
           populateprov_queued := populateprov_queued st |}
      else
        {| dialog := status_ (Some "Logged in") 0 (dialog st);
           populateprov_queued := S (populateprov_queued st) |}
  | Done =>
      {| dialog := status_ (Some "Logged in") 0 (dialog st);
         populateprov_queued := S (populateprov_queued st) |}
  end.

(** [_populateca] up to the start of the login thread, followed by the
    callback with the thread's result. *)
Definition _populateca (res : login_result) (st : state) : state :=
  cb res
    {| dialog := status_ (Some "Attempting login...") 0 (dialog st);
       populateprov_queued := populateprov_queued st |}.

End RRLogin.

(** ** Parameters and stored values of the dialogs

    The text of a control is taken as the [str] it is stored as. *)

Module Forms.

Import Py Wx.
Open Scope string_scope.

(** [value or ''] *)
Definition or_empty (value : option string) : string :=
  match value with
  | Some s => s
  | None => ""
  end.

(** *** [DMRMARCQueryDialog] *)

(** The text of the three controls. *)
Record DMRMARC := {
  dmr_city : string;
  dmr_state : string;
  dmr_country : string
}.

(** The fields [build] creates. *)
Definition DMRMARC_build (conf : CONF.t) : DMRMARC :=
  {| dmr_city := or_empty (CONF.get "city" "dmrmarc" conf);
     dmr_state := or_empty (CONF.get "state" "dmrmarc" conf);
     dmr_country := or_empty (CONF.get "country" "dmrmarc" conf) |}.

(** [do_query]: the three values are stored, then the base class
    starts the worker. *)
Definition DMRMARC_do_query (f : DMRMARC) (conf : CONF.t) (d : Query.Dialog)
  : CONF.t * Query.Dialog :=
  (CONF.set "country" (dmr_country f) "dmrmarc"
     (CONF.set "state" (dmr_state f) "dmrmarc"
        (CONF.set "city" (dmr_city f) "dmrmarc" conf)),
   Query.do_query d).

(** [get_params] reads the configuration, not the controls. *)
Definition DMRMARC_get_params (conf : CONF.t) : list (string * option string) :=
  [ ("city", CONF.get "city" "dmrmarc" conf);
    ("state", CONF.get "state" "dmrmarc" conf);
    ("country", CONF.get "country" "dmrmarc" conf) ].

(** *** [RepeaterBookQueryDialog] *)

Record RepeaterBook := {
  rb_selectors : RepeaterBookQueryDialog.Dialog;
  rb_lat : string;
  rb_lon : string;
  rb_dist : string
}.

(** The controls [build] creates, from the countries offered, the
    state table and the configuration. *)
Definition RepeaterBook_build (COUNTRIES : list string)
  (STATES : RepeaterBookQueryDialog.STATES_t) (conf : CONF.t)
  : result RepeaterBook :=
  let country := {| GetItems := COUNTRIES; GetSelection := None |} in
  let country :=
    match CONF.get "country" "repeaterbook" conf with
    | Some prev =>
        if negb (String.eqb prev "")
           && RepeaterBookQueryDialog.mem prev COUNTRIES
        then SetStringSelection prev country
        else country
    | None => country
    end in
  d <- RepeaterBookQueryDialog._state_selected STATES conf
         {| RepeaterBookQueryDialog._country := country;
            RepeaterBookQueryDialog._state :=
              {| GetItems := []; GetSelection := None |} |} ;;
  Ok {| rb_selectors := d;
        rb_lat := or_empty (CONF.get "lat" "repeaterbook" conf);
        rb_lon := or_empty (CONF.get "lon" "repeaterbook" conf);
        rb_dist := or_empty (CONF.get "dist" "repeaterbook" conf) |}.

Definition RepeaterBook_do_query (f : RepeaterBook) (conf : CONF.t)
  (d : Query.Dialog) : CONF.t * Query.Dialog :=
  (CONF.set "country"
     (GetStringSelection (RepeaterBookQueryDialog._country (rb_selectors f)))
     "repeaterbook"
     (CONF.set "state"
        (GetStringSelection (RepeaterBookQueryDialog._state (rb_selectors f)))
        "repeaterbook"
        (CONF.set "dist" (rb_dist f) "repeaterbook"
           (CONF.set "lon" (rb_lon f) "repeaterbook"
              (CONF.set "lat" (rb_lat f) "repeaterbook" conf)))),
   Query.do_query d).

Definition RepeaterBook_get_params (f : RepeaterBook) : Query.params :=
  [ ("country",
     GetStringSelection (RepeaterBookQueryDialog._country (rb_selectors f)));
    ("state",
     GetStringSelection (RepeaterBookQueryDialog._state (rb_selectors f)));
    ("lat", rb_lat f);
    ("lon", rb_lon f);
    ("dist", rb_dist f) ].

(** *** [RRQueryDialog.get_params] *)

(** [tab] is [self.tabs.GetSelection()] and [uszip] the text of the
    ZIP control. *)
Definition RR_get_params (tab : Z) (uszip : string) (d : RRQueryDialog.Dialog)
  : result Query.params :=
  if Z.eqb tab 0 then Ok [("zipcounty", uszip); ("country", "US")]
  else
    id <- RRQueryDialog.getattr "_ca_county_id" (RRQueryDialog._ca_county_id d) ;;
    Ok [("zipcounty", str_of_int id); ("country", "CA")].

End Forms.

(** * Properties *)

(** ** The controller: submit *)

Section Submit.

Import Py Wx Query Spec.

(** The value of [_call_validations] is decided by the direct children
    alone. *)
Lemma call_validations_direct (parent : Window) :
  fst (_call_validations parent) = forallb Validate (GetChildren parent).
Proof.
  destruct parent as [i v children]; simpl.
  induction children as [|child rest IH]; simpl; [reflexivity|].
  destruct (Validate child); simpl; [|reflexivity].
  destruct (_call_validations child) as [b inner].
  rewrite <- IH.
  match goal with |- context [let '(r, later) := ?t in _] => destruct t end.
  reflexivity.
Qed.

Lemma descendants_validate_direct (parent : Window) :
  descendants_validate parent = true ->
  forallb Validate (GetChildren parent) = true.
Proof.
  destruct parent as [i v children]; simpl.
  induction children as [|child rest IH]; simpl; [reflexivity|].
  intros H. apply andb_true_iff in H as [H1 H2].
  apply andb_true_iff in H1 as [H1 _].
  rewrite H1. simpl. exact (IH H2).
Qed.

(** When the whole tree validates, [Validate()] is called on every
    window below the dialog, depth first. *)
Lemma call_validations_depth_first :
  forall parent : Window,
    descendants_validate parent = true ->
    _call_validations parent = (true, descendants parent).
Proof.
  fix IH 1. intros [i v children]. simpl.
  induction children as [|child rest IHrest]; simpl; [reflexivity|].
  intros H. apply andb_true_iff in H as [H1 H3].
  apply andb_true_iff in H1 as [H1 H2].
  rewrite H1. simpl. rewrite (IH child H2), (IHrest H3). reflexivity.
Qed.

(** A top-level window that fails aborts the submit: the dialog is
    left as it was. *)
Lemma button_ok_abort (d : Dialog) :
  forallb Validate (GetChildren (self_window d)) = false ->
  _button ID_OK d = d.
Proof.
  intros H. unfold _button. rewrite Z.eqb_refl.
  rewrite call_validations_direct, H. reflexivity.
Qed.

(** When the whole tree validates the confirm control is disabled and
    one worker is started. *)
Lemma button_ok_submit (d : Dialog) :
  descendants_validate (self_window d) = true ->
  _button ID_OK d = do_query (set_ok_enabled false d).
Proof.
  intros H. unfold _button. rewrite Z.eqb_refl.
  rewrite call_validations_direct, (descendants_validate_direct _ H).
  reflexivity.
Qed.

(** Any other button ends the dialog with that button's id. *)
Lemma button_other (id : Z) (d : Dialog) :
  id <> ID_OK -> _button id d = EndModal id d.
Proof.
  intros H. unfold _button.
  destruct (Z.eqb_spec id ID_OK); [contradiction | reflexivity].
Qed.

Example all_valid_depth_first :
  _call_validations (self_window Examples.all_valid) = (true, [1; 2; 3; 4]%nat).
Proof. reflexivity. Qed.

Example direct_failure_stops :
  _call_validations (self_window Examples.direct_failure) = (false, [1; 2]%nat)
  /\ _button ID_OK Examples.direct_failure = Examples.direct_failure.
Proof. split; reflexivity. Qed.

(** C1: pressing OK validates the field tree depth-first and the first
    failing field, nested ones included, aborts the submit.  The code
    does not do this: [_call_validations] drops the value of its
    recursive call, so the submit is decided by the top-level windows
    alone.  On the dialog [Examples.nested_failure] window 2 is visited
    and fails, yet the confirm control is disabled and a worker is
    started. *)
Theorem C1_nested_failure_still_submits :
  (forall d : Dialog,
      _button ID_OK d =
      if forallb Validate (GetChildren (self_window d))
      then do_query (set_ok_enabled false d) else d)
  /\ descendants_validate (self_window Examples.nested_failure) = false
  /\ _call_validations (self_window Examples.nested_failure)
     = (true, [1; 2; 3]%nat)
  /\ ok_enabled (_button ID_OK Examples.nested_failure) = false
  /\ threads_started (_button ID_OK Examples.nested_failure) = 1%nat.
Proof.
  split; [|repeat split; reflexivity].
  intros d. unfold _button. rewrite Z.eqb_refl, call_validations_direct.
  destruct (forallb Validate (GetChildren (self_window d))); reflexivity.
Qed.

End Submit.

(** ** The worker and the progress events *)

Section Worker.

Import Py Wx Query Channel.
Open Scope string_scope.
Open Scope list_scope.

Lemma fold_perform_posted (cs : list sink_call) (d : Dialog) :
  fold_left perform cs d
  = {| self_window := self_window d; ok_enabled := ok_enabled d;
       gauge := gauge d; statusmsg := statusmsg d;
       modal_result := modal_result d;
       threads_started := threads_started d;
       posted := posted d ++ map event_of cs |}.
Proof.
  revert d. induction cs as [|c cs IH]; intros d; simpl.
  - rewrite app_nil_r. destruct d; reflexivity.
  - rewrite IH. destruct c; simpl; rewrite <- app_assoc; reflexivity.
Qed.

(** Handling the queue after one more event was posted is handling
    the queue as it was and then that event. *)
Lemma deliver_PostEvent (ev : QueryThreadEvent) (d : Dialog) :
  deliver (PostEvent ev d) = _got_status ev (deliver d).
Proof.
  unfold deliver, PostEvent. simpl. rewrite fold_left_app. reflexivity.
Qed.

Lemma posted_fold_perform (cs : list sink_call) (d : Dialog) :
  exists evs, posted (fold_left perform cs d) = posted d ++ evs.
Proof.
  revert d. induction cs as [|c cs IH]; intros d; simpl.
  - exists []. now rewrite app_nil_r.
  - destruct (IH (perform d c)) as [evs Hevs]. rewrite Hevs.
    destruct c; simpl; eexists; rewrite <- app_assoc; reflexivity.
Qed.

Lemma posted_try_body (r : radio) (gp : result params) (d : Dialog) :
  exists evs, posted (fst (try_body r gp d)) = posted d ++ evs.
Proof.
  unfold try_body. destruct gp as [p|e]; simpl.
  - apply posted_fold_perform.
  - exists []. now rewrite app_nil_r.
Qed.

(** What [run] does with an exception raised inside the [try]. *)
Lemma run_raise (r : radio) (gp : result params) (d : Dialog) (e : exn) :
  snd (try_body r gp d) = Raise e ->
  run r gp d =
  if isinstance_Exception (exn_class e)
  then (send_fail (Some ("Failed: " ++ exn_str e)%string) (fst (try_body r gp d)), None)
  else (fst (try_body r gp d), Some e).
Proof.
  unfold run. destruct (try_body r gp d) as [d' o]; simpl.
  intros ->. destruct (isinstance_Exception (exn_class e)); reflexivity.
Qed.

(** Only an exception that is not an [Exception] leaves [run]. *)
Lemma run_propagates_only_base (r : radio) (gp : result params) (d : Dialog)
  (e : exn) :
  snd (run r gp d) = Some e -> isinstance_Exception (exn_class e) = false.
Proof.
  unfold run. destruct (try_body r gp d) as [d' [u|e']]; simpl; [discriminate|].
  destruct (isinstance_Exception (exn_class e')) eqn:E; simpl; [discriminate|].
  intros H. injection H as <-. exact E.
Qed.

(** C2 does not hold for every exception: [except Exception] lets
    [SystemExit] through.  The exception leaves [run] and no failure
    event is posted. *)
Lemma C2_counterexample :
  run Examples.exiting_radio (Ok []) (Examples.dialog_of [])
  = (Examples.dialog_of [], Some (Exn SystemExit "")).
Proof. reflexivity. Qed.

(** C2, amended: when parameter collection or the provider's fetch
    raises an instance of [Exception], [run] catches it: nothing
    leaves [run], and the last event posted is the terminal failure
    with status ["Failed: " ++ str(e)] and percent 100, after whatever
    the provider had reported; the dialog is otherwise untouched by
    the handler.  An exception that is not an instance of [Exception],
    that is a [SystemExit], [KeyboardInterrupt] or [GeneratorExit],
    is not caught: it leaves [run], and the queue holds the provider's
    reports and no failure event. *)
Theorem C2_run_catches_Exception :
  (forall (r : radio) (gp : result params) (d : Dialog) (e : exn),
      gp = Raise e \/ (exists p, gp = Ok p /\ outcome (r p) = Raise e) ->
      isinstance_Exception (exn_class e) = true ->
      snd (run r gp d) = None
      /\ (exists earlier,
            posted (fst (run r gp d)) =
            posted d ++ earlier
              ++ [{| status := Some ("Failed: " ++ exn_str e)%string;
                     percent := 100 |}])
      /\ fst (run r gp d)
         = PostEvent {| status := Some ("Failed: " ++ exn_str e)%string;
                        percent := 100 |}
             (fst (try_body r gp d)))
  /\ (forall (r : radio) (gp : result params) (d : Dialog) (e : exn),
        gp = Raise e \/ (exists p, gp = Ok p /\ outcome (r p) = Raise e) ->
        isinstance_Exception (exn_class e) = false ->
        snd (run r gp d) = Some e
        /\ fst (run r gp d) = fst (try_body r gp d)
        /\ posted (fst (run r gp d))
           = posted d
               ++ match gp with
                  | Ok p => map event_of (calls (r p))
                  | Raise _ => []
                  end)
  /\ (forall c : exc_class,
        isinstance_Exception c = false <->
        c = SystemExit \/ c = KeyboardInterrupt \/ c = GeneratorExit).
Proof.
  split; [|split].
  - intros r gp d e Hraise Hexc.
    assert (Hbody : snd (try_body r gp d) = Raise e).
    { unfold try_body. destruct Hraise as [-> | [p [-> Hp]]]; simpl; auto. }
    rewrite (run_raise _ _ _ Hbody), Hexc. simpl.
    split; [reflexivity|]. split; [|reflexivity].
    destruct (posted_try_body r gp d) as [evs Hevs].
    exists evs. rewrite Hevs, <- app_assoc. reflexivity.
  - intros r gp d e Hraise Hexc.
    assert (Hbody : snd (try_body r gp d) = Raise e).
    { unfold try_body. destruct Hraise as [-> | [p [-> Hp]]]; simpl; auto. }
    rewrite (run_raise _ _ _ Hbody), Hexc. simpl.
    split; [reflexivity|]. split; [reflexivity|].
    unfold try_body. destruct gp as [p|e']; simpl.
    + rewrite fold_perform_posted. reflexivity.
    + now rewrite app_nil_r.
  - intros c. split.
    + destruct c; simpl; intros H; try discriminate; auto.
    + intros [-> | [-> | ->]]; reflexivity.
Qed.

Lemma C2_run_catches_Exception_witness :
  (snd (run Examples.failing_radio (Ok []) (Examples.dialog_of [])) = None
   /\ (exists earlier,
         posted (fst (run Examples.failing_radio (Ok [])
                        (Examples.dialog_of [])))
         = posted (Examples.dialog_of []) ++ earlier
           ++ [{| status := Some ("Failed: " ++ "no such state")%string;
                  percent := 100 |}])
   /\ fst (run Examples.failing_radio (Ok []) (Examples.dialog_of []))
      = PostEvent {| status := Some ("Failed: " ++ "no such state")%string;
                     percent := 100 |}
          (fst (try_body Examples.failing_radio (Ok [])
                  (Examples.dialog_of []))))
  /\ (snd (run Examples.exiting_radio (Ok []) (Examples.dialog_of []))
      = Some (Exn SystemExit "")
      /\ posted (fst (run Examples.exiting_radio (Ok [])
                        (Examples.dialog_of []))) = []).
Proof.
  destruct C2_run_catches_Exception as [Hcaught [Hescapes _]].
  split.
  - apply (Hcaught Examples.failing_radio (Ok []) (Examples.dialog_of [])
             (Exn ValueError "no such state")).
    + right. exists []. split; reflexivity.
    + reflexivity.
  - destruct (Hescapes Examples.exiting_radio (Ok []) (Examples.dialog_of [])
                (Exn SystemExit "")) as [H1 [_ H3]].
    + right. exists []. split; reflexivity.
    + reflexivity.
    + split; [exact H1 | exact H3].
Defined.

(** The scenarios of a submit: a run that succeeds closes the dialog
    with [wx.ID_OK]; a run that fails shows the reason, enables the
    confirm control again and leaves the dialog open. *)
Example submit_then_success :
  let d := _button ID_OK Examples.all_valid in
  let d' := deliver (fst (run Examples.succeeding_radio (Ok []) d)) in
  ok_enabled d = false /\ threads_started d = 1%nat
  /\ modal_result d' = Some ID_OK /\ gauge d' = 100%Z.
Proof. repeat split; reflexivity. Qed.

Example submit_then_failure :
  let d := _button ID_OK Examples.all_valid in
  let d' := deliver (fst (run Examples.failing_radio (Ok []) d)) in
  statusmsg d' = "Failed: no such state" /\ ok_enabled d' = true
  /\ modal_result d' = None /\ gauge d' = 100%Z.
Proof. repeat split; reflexivity. Qed.

Example failing_radio_events :
  posted (fst (run Examples.failing_radio (Ok []) (Examples.dialog_of [])))
  = [ {| status := Some "Fetching"; percent := 40 |};
      {| status := Some "Failed: no such state"; percent := 100 |} ].
Proof. reflexivity. Qed.

(** C3: the success signal posts exactly the event (None, 100), and on
    every event whose status is None the controller sets the gauge to
    the event's percent and ends the dialog with [wx.ID_OK]. *)
Theorem C3_success_event_accepts :
  (forall d : Dialog,
      send_end d = PostEvent {| status := None; percent := 100 |} d
      /\ posted (send_end d) = posted d ++ [{| status := None; percent := 100 |}])
  /\ (forall (p : Z) (d : Dialog),
        gauge (_got_status {| status := None; percent := p |} d) = p
        /\ modal_result (_got_status {| status := None; percent := p |} d)
           = Some ID_OK).
Proof.
  split.
  - intros d. split; reflexivity.
  - intros p d. unfold _got_status; simpl.
    destruct (Z.eqb p 100); split; reflexivity.
Qed.

(** C4: on an event with a status text and percent 100 the status line
    shows that text, the confirm control is enabled again and
    [EndModal] is not called: the dialog stays as open as it was. *)
Theorem C4_failure_event_rearms (reason : string) (d : Dialog) :
  let d' := _got_status {| status := Some reason; percent := 100 |} d in
  statusmsg d' = reason
  /\ ok_enabled d' = true
  /\ modal_result d' = modal_result d
  /\ gauge d' = 100%Z
  /\ threads_started d' = threads_started d.
Proof. repeat split; reflexivity. Qed.

(** C10: whether a terminal event closes the dialog depends on its
    status being None and on nothing else.  A failure sent with the
    reason None posts the very event of a success, and once that event
    is handled the dialog has ended with [wx.ID_OK]; the empty string
    is a reason like any other: it is shown and the dialog stays as
    open as it was; every event with percent 100, from a success or
    from a failure, enables the confirm control. *)
Theorem C10_classification_by_status_only :
  (forall (ev : QueryThreadEvent) (d : Dialog),
      modal_result (_got_status ev d) =
      match status ev with
      | None => Some ID_OK
      | Some _ => modal_result d
      end)
  /\ (forall (reason : option string) (d : Dialog),
        posted (send_fail reason d)
        = posted d ++ [{| status := reason; percent := 100 |}]
        /\ deliver (send_fail reason d)
           = _got_status {| status := reason; percent := 100 |} (deliver d))
  /\ (forall d : Dialog,
        send_fail None d = send_end d
        /\ posted (send_end d)
           = posted d ++ [{| status := None; percent := 100 |}])
  /\ (forall d : Dialog,
        modal_result (deliver (send_fail None d)) = Some ID_OK
        /\ modal_result (deliver (send_end d)) = Some ID_OK)
  /\ (forall d : Dialog,
        modal_result
          (_got_status {| status := None; percent := 100 |} (send_fail None d))
        = Some ID_OK)
  /\ (forall d : Dialog,
        let d' := deliver (send_fail (Some "") d) in
        modal_result d' = modal_result (deliver d) /\ statusmsg d' = "")
  /\ (forall d : Dialog,
        let d' := _got_status {| status := Some ""; percent := 100 |} d in
        modal_result d' = modal_result d /\ statusmsg d' = "")
  /\ (forall (s : option string) (d : Dialog),
        ok_enabled (_got_status {| status := s; percent := 100 |} d) = true)
  /\ (forall (reason : option string) (d : Dialog),
        ok_enabled (deliver (send_fail reason d)) = true
        /\ ok_enabled (deliver (send_end d)) = true).
Proof.
  assert (Hok : forall (s : option string) (d : Dialog),
             ok_enabled (_got_status {| status := s; percent := 100 |} d)
             = true).
  { intros s d. unfold _got_status; simpl. destruct s; reflexivity. }
  assert (Hdeliver : forall (reason : option string) (d : Dialog),
             deliver (send_fail reason d)
             = _got_status {| status := reason; percent := 100 |} (deliver d)).
  { intros reason d. unfold send_fail, fail, status_.
    apply deliver_PostEvent. }
  split; [|split; [|split; [|split; [|split; [|split; [|split; [|split]]]]]]].
  - intros [s p] d. unfold _got_status; simpl.
    destruct s, (Z.eqb p 100); reflexivity.
  - intros reason d. split; [reflexivity | apply Hdeliver].
  - intros d. split; reflexivity.
  - intros d.
    change (send_end d) with (send_fail None d).
    rewrite Hdeliver. split; reflexivity.
  - reflexivity.
  - intros d. cbv zeta. rewrite Hdeliver. split; reflexivity.
  - intros d. split; reflexivity.
  - exact Hok.
  - intros reason d.
    change (send_end d) with (send_fail None d).
    rewrite !Hdeliver. split; apply Hok.
Qed.

End Worker.

(** ** The validators *)

Section Validators.

Import Py Unicode Builtins Wx.
Open Scope string_scope.

Lemma number_empty_valid (c : NumberValidator.cls) (t : TextCtrl) :
  NumberValidator.OPTIONAL c = true ->
  GetValue t = [] ->
  NumberValidator.Validate c t
  = {| valid := true; window := t; focused := false; message_box := None |}.
Proof.
  intros Hopt Hempty. unfold NumberValidator.Validate.
  rewrite Hempty, Hopt. reflexivity.
Qed.

Lemma number_valid_iff (c : NumberValidator.cls) (t : TextCtrl) :
  GetValue t <> [] ->
  valid (NumberValidator.Validate c t) = true <->
  exists v, float (GetValue t) = Some v
            /\ float_ge_int v (NumberValidator.MIN c) = true
            /\ float_le_int v (NumberValidator.MAX c) = true.
Proof.
  intros Hne. unfold NumberValidator.Validate.
  destruct (GetValue t) as [|ch rest] eqn:Hv; [contradiction|]. simpl.
  destruct (float (ch :: rest)) as [v|]; simpl.
  - destruct (float_ge_int v (NumberValidator.MIN c)) eqn:Hge;
      destruct (float_le_int v (NumberValidator.MAX c)) eqn:Hle; simpl;
      split; intros H;
      try discriminate;
      try (exists v; auto);
      destruct H as [w [Hw [H1 H2]]]; injection Hw as <-; congruence.
  - split; [discriminate|]. intros [w [Hw _]]. discriminate.
Qed.

(** The message of a failure depends on the class and on the kind of
    failure, not on the text entered. *)
Lemma number_failure_message (c : NumberValidator.cls) (t : TextCtrl) :
  valid (NumberValidator.Validate c t) = false ->
  message_box (NumberValidator.Validate c t)
  = Some match float (GetValue t) with
         | None => NumberValidator.msg_ValueError c
         | Some _ => NumberValidator.msg_AssertionError c
         end.
Proof.
  unfold NumberValidator.Validate.
  destruct (match GetValue t with [] => true | _ => false end
            && NumberValidator.OPTIONAL c); simpl; [discriminate|].
  destruct (float (GetValue t)) as [v|]; simpl; [|reflexivity].
  destruct (float_ge_int v (NumberValidator.MIN c)
            && float_le_int v (NumberValidator.MAX c));
    simpl; [discriminate | reflexivity].
Qed.

(** A failure of a number validator marks the control and takes the
    focus. *)
Lemma number_failure_marks (c : NumberValidator.cls) (t : TextCtrl) :
  valid (NumberValidator.Validate c t) = false ->
  window (NumberValidator.Validate c t) = SetBackgroundColour pink t
  /\ focused (NumberValidator.Validate c t) = true.
Proof.
  unfold NumberValidator.Validate.
  destruct (match GetValue t with [] => true | _ => false end
            && NumberValidator.OPTIONAL c); simpl; [discriminate|].
  destruct (float (GetValue t)) as [v|]; simpl; [|split; reflexivity].
  destruct (float_ge_int v (NumberValidator.MIN c)
            && float_le_int v (NumberValidator.MAX c));
    simpl; [discriminate | split; reflexivity].
Qed.

(** C5 fails in its last part: the latitude message for "95" does
    not contain that text, and the message for "north", which is not
    a number, contains neither that text nor a bound. *)
Lemma C5_counterexample :
  message_box (NumberValidator.Validate NumberValidator.LatValidator
                 (Examples.entered "95"))
  = Some "Latitude must be between -90 and 90"
  /\ contains (u "95") (u "Latitude must be between -90 and 90") = false
  /\ message_box (NumberValidator.Validate NumberValidator.LatValidator
                    (Examples.entered "north"))
     = Some "Invalid Latitude (use decimal degrees)"
  /\ contains (u "north") (u "Invalid Latitude (use decimal degrees)") = false
  /\ contains (u "90") (u "Invalid Latitude (use decimal degrees)") = false.
Proof. vm_compute. repeat split. Qed.

(** C5, amended: for a number validator on an optional field the
    empty text is valid; a non-empty text is valid exactly when
    [float] parses it to some [v] with [MIN <= v <= MAX]; the bounds
    are [-90, 90] for latitude, [-180, 180] for longitude and
    [0, 7000] for distance, so 90, -90, 7000 and 0 are valid and
    90.0001, -90.0001, 7000.0001 and -0.0001 are not.  The message of
    a failure is fixed by the validator and the kind of failure: text
    that is not a number gives "Invalid <field> (use decimal
    degrees)", which names the field only, and a number out of range
    gives "<field> must be between <min> and <max>", which names the
    field and the bounds.  The text entered is not put into the
    message: two texts that fail the same way get the same message. *)
Theorem C5_number_validator :
  (forall (c : NumberValidator.cls) (t : TextCtrl),
      NumberValidator.OPTIONAL c = true ->
      GetValue t = [] -> valid (NumberValidator.Validate c t) = true)
  /\ (forall (c : NumberValidator.cls) (t : TextCtrl),
        GetValue t <> [] ->
        (valid (NumberValidator.Validate c t) = true <->
         exists v, float (GetValue t) = Some v
                   /\ float_ge_int v (NumberValidator.MIN c) = true
                   /\ float_le_int v (NumberValidator.MAX c) = true))
  /\ (forall (c : NumberValidator.cls) (t : TextCtrl),
        valid (NumberValidator.Validate c t) = false ->
        message_box (NumberValidator.Validate c t)
        = Some match float (GetValue t) with
               | None => ("Invalid " ++ NumberValidator.THING c
                            ++ " (use decimal degrees)")
               | Some _ => (NumberValidator.THING c ++ " must be between "
                              ++ str_of_int (NumberValidator.MIN c) ++ " and "
                              ++ str_of_int (NumberValidator.MAX c))
               end)
  /\ (forall (c : NumberValidator.cls) (t t' : TextCtrl),
        valid (NumberValidator.Validate c t) = false ->
        valid (NumberValidator.Validate c t') = false ->
        (float (GetValue t) = None <-> float (GetValue t') = None) ->
        message_box (NumberValidator.Validate c t)
        = message_box (NumberValidator.Validate c t'))
  /\ map (fun k => (NumberValidator.THING k, NumberValidator.MIN k,
                    NumberValidator.MAX k, NumberValidator.OPTIONAL k))
       [NumberValidator.LatValidator; NumberValidator.LonValidator;
        NumberValidator.DistValidator]
     = [("Latitude", -90, 90, true); ("Longitude", -180, 180, true);
        ("Distance", 0, 7000, true)]%Z
  /\ map (fun s => valid (NumberValidator.Validate NumberValidator.LatValidator
                            (Examples.entered s)))
       ["90"; "-90"; "90.0001"; "-90.0001"]
     = [true; true; false; false]
  /\ map (fun s => valid (NumberValidator.Validate NumberValidator.LonValidator
                            (Examples.entered s)))
       ["180"; "-180"; "180.0001"; "-180.0001"]
     = [true; true; false; false]
  /\ map (fun s => valid (NumberValidator.Validate NumberValidator.DistValidator
                            (Examples.entered s)))
       ["7000"; "0"; "7000.0001"; "-0.0001"]
     = [true; true; false; false].
Proof.
  split; [|split; [|split; [|split; [|split; [|split; [|split]]]]]].
  - intros c t Hopt Hempty. now rewrite (number_empty_valid c t Hopt Hempty).
  - apply number_valid_iff.
  - apply number_failure_message.
  - intros c t t' Hf Hf' Hsame.
    rewrite (number_failure_message c t Hf), (number_failure_message c t' Hf').
    destruct (float (GetValue t)) as [v|], (float (GetValue t')) as [v'|];
      try reflexivity.
    + destruct Hsame as [_ H]. discriminate (H eq_refl).
    + destruct Hsame as [H _]. discriminate (H eq_refl).
  - reflexivity.
  - vm_compute. reflexivity.
  - vm_compute. reflexivity.
  - vm_compute. reflexivity.
Qed.

Lemma C5_number_validator_witness :
  valid (NumberValidator.Validate NumberValidator.LatValidator
           (Examples.entered "")) = true
  /\ (valid (NumberValidator.Validate NumberValidator.LatValidator
               (Examples.entered "45.5")) = true <->
      exists v, float (u "45.5") = Some v
                /\ float_ge_int v (-90) = true /\ float_le_int v 90 = true)
  /\ message_box (NumberValidator.Validate NumberValidator.LatValidator
                    (Examples.entered "95"))
     = Some "Latitude must be between -90 and 90".
Proof.
  destruct C5_number_validator as [Hempty [Hiff [Hmsg _]]].
  split; [|split].
  - apply Hempty; reflexivity.
  - apply (Hiff NumberValidator.LatValidator (Examples.entered "45.5")).
    discriminate.
  - rewrite (Hmsg NumberValidator.LatValidator (Examples.entered "95"));
      vm_compute; reflexivity.
Defined.

(** Among the ASCII characters the digits of [str.isdigit] are
    ['0'] to ['9']. *)
Lemma isdigit_char_ascii_table :
  forallb (fun n => Bool.eqb (isdigit_char (N.of_nat n))
                      (is_ascii_digit (N.of_nat n)))
    (seq 0 128) = true.
Proof. vm_compute. reflexivity. Qed.

Lemma isdigit_char_ascii (ch : N) :
  (ch <? 128)%N && isdigit_char ch = is_ascii_digit ch.
Proof.
  destruct (N.ltb_spec ch 128) as [Hlt|Hge]; simpl.
  - pose proof isdigit_char_ascii_table as T.
    rewrite forallb_forall in T.
    specialize (T (N.to_nat ch)).
    rewrite N2Nat.id in T. apply Bool.eqb_prop, T.
    apply in_seq. lia.
  - unfold is_ascii_digit. symmetry. apply andb_false_iff. right.
    apply N.leb_gt. lia.
Qed.

(** Digits of the supplementary planes count as well: the
    mathematical bold digits U+1D7CE to U+1D7D7 are digits for
    [str.isdigit], and [float] reads bold "90" as 90. *)
Example digits_of_supplementary_planes :
  isdigit [0x1D7CF; 0x1D7D0; 0x1D7D1; 0x1D7D2; 0x1D7D3]%N = true
  /\ float [0x1D7D7; 0x1D7CE]%N = float (u "90")
  /\ valid (NumberValidator.Validate NumberValidator.LatValidator
              {| GetValue := [0x1D7D7; 0x1D7CE]%N;
                 GetBackgroundColour := SYS_COLOUR_WINDOW |}) = true
  /\ valid (ZipValidator.Validate
              {| GetValue := [0x1D7CF; 0x1D7D0; 0x1D7D1; 0x1D7D2; 0x1D7D3]%N;
                 GetBackgroundColour := SYS_COLOUR_WINDOW |}) = true.
Proof. vm_compute. repeat split. Qed.

(** C6 fails for digits outside ASCII: [str.isdigit] accepts every
    Unicode digit, so four ASCII digits followed by U+0665 pass. *)
Lemma C6_counterexample :
  valid (ZipValidator.Validate Examples.zip_arabic_indic) = true
  /\ List.length (GetValue Examples.zip_arabic_indic) = 5%nat
  /\ forallb is_ascii_digit (GetValue Examples.zip_arabic_indic) = false.
Proof. vm_compute. repeat split. Qed.

(** C6, amended: the postal-code validator accepts a text exactly when
    it has 5 characters and each of them is a digit for [str.isdigit];
    among the ASCII characters these are ['0'] to ['9'] and no other,
    so "12345" is valid and "1234", "123456" and "1234a" are not, while
    digits of other scripts are accepted as well. *)
Theorem C6_zip_validator :
  (forall t : TextCtrl,
      valid (ZipValidator.Validate t)
      = Nat.eqb (List.length (GetValue t)) 5
        && forallb isdigit_char (GetValue t))
  /\ (forall ch : N, (ch <? 128)%N && isdigit_char ch = is_ascii_digit ch)
  /\ map (fun s => valid (ZipValidator.Validate (Examples.entered s)))
       ["12345"; "1234"; "123456"; "1234a"; ""]
     = [true; false; false; false; false]
  /\ (forall t : TextCtrl,
        window (ZipValidator.Validate t) = t
        /\ message_box (ZipValidator.Validate t)
           = if valid (ZipValidator.Validate t) then None
             else Some "Invalid ZIP code").
Proof.
  split; [|split; [|split]].
  - intros t. unfold ZipValidator.Validate, isdigit.
    destruct (GetValue t) as [|ch rest]; simpl; [reflexivity|].
    destruct (Nat.eqb (List.length rest) 4
              && (isdigit_char ch && forallb isdigit_char rest));
      reflexivity.
  - apply isdigit_char_ascii.
  - vm_compute. reflexivity.
  - intros t. unfold ZipValidator.Validate.
    destruct (Nat.eqb (List.length (GetValue t)) 5 && isdigit (GetValue t));
      split; reflexivity.
Qed.

(** C9 fails for the postal-code validator: a failure leaves the
    background and the focus as they were. *)
Lemma C9_counterexample :
  valid (Field.Validate Field.Zip (Examples.entered "1234")) = false
  /\ GetBackgroundColour
       (window (Field.Validate Field.Zip (Examples.entered "1234")))
     = GetBackgroundColour (Examples.entered "1234")
  /\ focused (Field.Validate Field.Zip (Examples.entered "1234")) = false.
Proof. vm_compute. repeat split. Qed.

(** C9, amended: a failure of a number validator (latitude, longitude,
    distance) turns the background of its field pink and moves the
    focus to it, and the next change of the field's content restores
    the window colour whatever the new content is, without validating
    it.  The postal-code validator only shows its message: it never
    touches the background or the focus. *)
Theorem C9_number_validator_mark :
  (forall (c : NumberValidator.cls) (t : TextCtrl),
      valid (Field.Validate (Field.Number c) t) = false ->
      GetBackgroundColour (window (Field.Validate (Field.Number c) t)) = pink
      /\ pink <> SYS_COLOUR_WINDOW
      /\ focused (Field.Validate (Field.Number c) t) = true
      /\ (forall text : ustr,
            Field.change (Field.Number c) text
              (window (Field.Validate (Field.Number c) t))
            = {| GetValue := text;
                 GetBackgroundColour := SYS_COLOUR_WINDOW |}))
  /\ (forall (c : NumberValidator.cls) (t : TextCtrl) (text : ustr),
        GetBackgroundColour (Field.change (Field.Number c) text t)
        = SYS_COLOUR_WINDOW)
  /\ (forall z : TextCtrl,
        window (Field.Validate Field.Zip z) = z
        /\ focused (Field.Validate Field.Zip z) = false
        /\ (forall text : ustr,
              Field.change Field.Zip text z = SetValue text z)).
Proof.
  split; [|split].
  - simpl. intros c t Hfail.
    destruct (number_failure_marks c t Hfail) as [Hw Hf].
    rewrite Hw, Hf.
    split; [reflexivity|]. split; [discriminate|]. split; reflexivity.
  - reflexivity.
  - intros z. simpl. unfold ZipValidator.Validate.
    destruct (Nat.eqb (List.length (GetValue z)) 5 && isdigit (GetValue z));
      repeat split.
Qed.

Lemma C9_number_validator_mark_witness :
  valid (Field.Validate (Field.Number NumberValidator.LatValidator)
           (Examples.entered "95")) = false
  /\ GetBackgroundColour
       (window (Field.Validate (Field.Number NumberValidator.LatValidator)
                  (Examples.entered "95"))) = pink
  /\ Field.change (Field.Number NumberValidator.LatValidator) (u "north")
       (window (Field.Validate (Field.Number NumberValidator.LatValidator)
                  (Examples.entered "95")))
     = {| GetValue := u "north"; GetBackgroundColour := SYS_COLOUR_WINDOW |}.
Proof.
  assert (H : valid (Field.Validate (Field.Number NumberValidator.LatValidator)
                       (Examples.entered "95")) = false)
    by (vm_compute; reflexivity).
  split; [exact H|].
  destruct C9_number_validator_mark as [Hmark _].
  destruct (Hmark NumberValidator.LatValidator (Examples.entered "95") H)
    as [Hp [_ [_ Hc]]].
  split; [exact Hp | exact (Hc (u "north"))].
Defined.

End Validators.

(** ** The cascading selectors *)

Section Selectors.

Import Py Wx.
Open Scope string_scope.
Open Scope list_scope.

Lemma append_counties_items (rows : list RRQueryDialog.county_row)
  (chosenprov : string) (c : Choice) :
  RRQueryDialog.append_counties rows chosenprov c
  = {| GetItems :=
         GetItems c
           ++ map RRQueryDialog.county
                (filter (fun x => String.eqb (RRQueryDialog.prov x) chosenprov)
                   rows);
       GetSelection := GetSelection c |}.
Proof.
  revert c. induction rows as [|x rows IH]; intros c; simpl.
  - rewrite app_nil_r. destruct c; reflexivity.
  - destruct (String.eqb (RRQueryDialog.prov x) chosenprov); simpl.
    + rewrite IH. simpl. rewrite <- app_assoc. reflexivity.
    + apply IH.
Qed.

Lemma selected_province_choice (T : RRQueryDialog.tables) (chosenprov : string)
  (d : RRQueryDialog.Dialog) :
  RRQueryDialog.append_counties (RRQueryDialog.CA_COUNTIES T) chosenprov
    (Clear (RRQueryDialog._countychoice d))
  = {| GetItems := Spec.counties_of T chosenprov; GetSelection := None |}.
Proof. rewrite append_counties_items. reflexivity. Qed.

(** Without a county for the chosen province [_selected_province]
    raises [IndexError]. *)
Lemma selected_province_empty (T : RRQueryDialog.tables) (chosenprov : string)
  (d : RRQueryDialog.Dialog) :
  Spec.counties_of T chosenprov = [] ->
  RRQueryDialog._selected_province T chosenprov d
  = Raise (Exn IndexError "list index out of range").
Proof.
  intros H. unfold RRQueryDialog._selected_province.
  rewrite selected_province_choice. simpl. rewrite H. reflexivity.
Qed.

Lemma FindString_mem (p : string) (items : list string) :
  RepeaterBookQueryDialog.mem p items = true ->
  exists i, FindString p items = Some i /\ nth i items EmptyString = p.
Proof.
  unfold RepeaterBookQueryDialog.mem.
  induction items as [|x items IH]; simpl; [discriminate|].
  rewrite String.eqb_sym.
  destruct (String.eqb_spec x p) as [->|Hne]; simpl.
  - intros _. exists 0%nat. split; reflexivity.
  - intros H. destruct (IH H) as [i [Hi Hn]].
    exists (S i). rewrite Hi. split; [reflexivity | exact Hn].
Qed.

Lemma find_county_id_find (rows : list RRQueryDialog.county_row)
  (k : RRQueryDialog.county_key) :
  RRQueryDialog.find_county_id rows k
  = match find (fun row => RRQueryDialog.name_eq (RRQueryDialog.county row) k) rows with
    | Some row => RRQueryDialog.cid row
    | None => 0%Z
    end.
Proof.
  induction rows as [|row rows IH]; simpl; [reflexivity|].
  destruct (RRQueryDialog.name_eq (RRQueryDialog.county row) k); [reflexivity | exact IH].
Qed.

(** C7 fails in its rule for the default child.  In the RepeaterBook
    dialog nothing is stored, and after the country changes no state
    is selected, not the first one.  In the RadioReference dialog the
    county Brant (id 20) is stored and is among the counties of the
    new province, and the county taken is the first one, Algoma
    (id 10). *)
Lemma C7_counterexample :
  (exists d',
      RepeaterBookQueryDialog._state_selected Examples.STATES []
        Examples.rb_dialog = Ok d'
      /\ GetItems (RepeaterBookQueryDialog._state d')
         = ["Alberta"; "Ontario"; "Quebec"]
      /\ Spec.default_child None (GetItems (RepeaterBookQueryDialog._state d'))
         = Some "Alberta"
      /\ GetSelection (RepeaterBookQueryDialog._state d') = None)
  /\ (exists d',
        RRQueryDialog._selected_province Examples.provinces_and_counties "ON"
          (Examples.rr_dialog Examples.conf_brant) = Ok d'
        /\ GetItems (RRQueryDialog._countychoice d') = ["Algoma"; "Brant"]
        /\ CONF.get "county" "radioreference" Examples.conf_brant = Some "20"
        /\ (exists d0,
              RRQueryDialog.getconfdefaults Examples.provinces_and_counties
                (Examples.rr_dialog Examples.conf_brant) = Ok d0
              /\ RRQueryDialog.default_county d0
                 = Some (RRQueryDialog.Name "Brant"))
        /\ Spec.default_child (Some "Brant")
             (GetItems (RRQueryDialog._countychoice d')) = Some "Brant"
        /\ RRQueryDialog._ca_county_id d' = Some 10%Z
        /\ CONF.get "county" "radioreference" (RRQueryDialog.conf d')
           = Some "10").
Proof.
  split; eexists; (split; [reflexivity|]).
  - repeat split; reflexivity.
  - split; [reflexivity|]. split; [reflexivity|].
    split; [eexists; split; reflexivity|].
    repeat split; reflexivity.
Qed.

(** C7, amended: whenever the handler of a parent change completes,
    the child list is exactly the rows of the relation table whose
    parent key is the new value, in table order.  In the RepeaterBook
    dialog the handler completes when [STATES] has an entry for the
    new country; the stored state is then selected when it is not
    empty and is among the new choices, and otherwise no state is
    selected.  In the RadioReference dialog the handler completes when
    the new province has at least one county; the first entry of the
    new list is then taken as the chosen county, whatever was stored
    before, and the county id put in use and stored is the one found
    for that name: the id of the first row of the whole county table
    with that county name, which is the entry's own id when no
    earlier row has the name; the county selector shows no
    selection. *)
Theorem C7_child_choices :
  (forall (STATES : RepeaterBookQueryDialog.STATES_t) (c : CONF.t)
      (rb : RepeaterBookQueryDialog.Dialog) (states : list string),
      RepeaterBookQueryDialog.getitem STATES
        (GetStringSelection (RepeaterBookQueryDialog._country rb))
      = Some states ->
      exists rb',
        RepeaterBookQueryDialog._state_selected STATES c rb = Ok rb'
        /\ RepeaterBookQueryDialog._country rb'
           = RepeaterBookQueryDialog._country rb
        /\ GetItems (RepeaterBookQueryDialog._state rb') = states
        /\ match CONF.get "state" "repeaterbook" c with
           | Some p =>
               if negb (String.eqb p "")
                  && RepeaterBookQueryDialog.mem p states
               then GetStringSelection (RepeaterBookQueryDialog._state rb') = p
               else GetSelection (RepeaterBookQueryDialog._state rb') = None
           | None => GetSelection (RepeaterBookQueryDialog._state rb') = None
           end)
  /\ (forall (T : RRQueryDialog.tables) (chosenprov : string)
        (rr : RRQueryDialog.Dialog) (first : string) (others : list string),
        map RRQueryDialog.county
          (filter (fun x => String.eqb (RRQueryDialog.prov x) chosenprov)
             (RRQueryDialog.CA_COUNTIES T)) = first :: others ->
        let id :=
          match find (fun row => String.eqb (RRQueryDialog.county row) first)
                  (RRQueryDialog.CA_COUNTIES T) with
          | Some row => RRQueryDialog.cid row
          | None => 0%Z
          end in
        exists rr',
          RRQueryDialog._selected_province T chosenprov rr = Ok rr'
          /\ GetItems (RRQueryDialog._countychoice rr') = first :: others
          /\ GetSelection (RRQueryDialog._countychoice rr') = None
          /\ RRQueryDialog._ca_county_id rr' = Some id
          /\ CONF.get "county" "radioreference" (RRQueryDialog.conf rr')
             = Some (str_of_int id))
  /\ (forall (before after : list RRQueryDialog.county_row)
        (x : RRQueryDialog.county_row),
        (forall y, In y before ->
                   String.eqb (RRQueryDialog.county y) (RRQueryDialog.county x)
                   = false) ->
        match find (fun row => String.eqb (RRQueryDialog.county row)
                                 (RRQueryDialog.county x))
                (before ++ x :: after) with
        | Some row => RRQueryDialog.cid row
        | None => 0%Z
        end = RRQueryDialog.cid x).
Proof.
  split; [|split].
  - intros STATES c rb states Hstates.
    unfold RepeaterBookQueryDialog._state_selected. rewrite Hstates.
    eexists. split; [reflexivity|]. simpl.
    split; [reflexivity|].
    destruct (CONF.get "state" "repeaterbook" c) as [p|]; simpl.
    + destruct (negb (String.eqb p "")) eqn:Hp; simpl.
      * destruct (RepeaterBookQueryDialog.mem p states) eqn:Hm; simpl.
        -- destruct (FindString_mem _ _ Hm) as [i [Hi Hn]].
           unfold SetStringSelection; simpl. rewrite Hi.
           split; [reflexivity|]. exact Hn.
        -- split; reflexivity.
      * split; reflexivity.
    + split; reflexivity.
  - intros T chosenprov rr first others Hcounties id.
    unfold RRQueryDialog._selected_province.
    rewrite selected_province_choice. simpl.
    unfold Spec.counties_of. rewrite Hcounties.
    eexists. split; [reflexivity|]. simpl.
    rewrite find_county_id_find. simpl.
    repeat split.
  - intros before after x Hbefore.
    induction before as [|y before IH]; simpl.
    + now rewrite String.eqb_refl.
    + rewrite (Hbefore y (or_introl eq_refl)).
      apply IH. intros z Hz. apply Hbefore. now right.
Qed.

Lemma C7_child_choices_witness :
  (exists rb',
      RepeaterBookQueryDialog._state_selected Examples.STATES
        [("repeaterbook", "state", "Quebec")] Examples.rb_dialog = Ok rb'
      /\ GetItems (RepeaterBookQueryDialog._state rb')
         = ["Alberta"; "Ontario"; "Quebec"]
      /\ GetStringSelection (RepeaterBookQueryDialog._state rb') = "Quebec")
  /\ (exists rr',
        RRQueryDialog._selected_province Examples.provinces_and_counties "ON"
          (Examples.rr_dialog Examples.conf_brant) = Ok rr'
        /\ GetItems (RRQueryDialog._countychoice rr') = ["Algoma"; "Brant"]
        /\ RRQueryDialog._ca_county_id rr' = Some 10%Z).
Proof.
  destruct C7_child_choices as [Hrb [Hrr _]].
  destruct (Hrb Examples.STATES [("repeaterbook", "state", "Quebec")]
              Examples.rb_dialog ["Alberta"; "Ontario"; "Quebec"] eq_refl)
    as [rb' [H1 [_ [H2 H3]]]].
  destruct (Hrr Examples.provinces_and_counties "ON"
              (Examples.rr_dialog Examples.conf_brant) "Algoma" ["Brant"]
              eq_refl)
    as [rr' [H4 [H5 [_ [H6 _]]]]].
  split.
  - exists rb'. split; [exact H1|]. split; [exact H2 | exact H3].
  - exists rr'. split; [exact H4|]. split; [exact H5 | exact H6].
Defined.

(** C8: with no valid choice at a selector level the resolver must
    fall back to an empty state and not raise.  The code raises.
    After a login that returns no province [populateprov] reads
    [default_prov], which was never assigned; with provinces but
    nothing stored it falls back to "BC", which has no county here;
    and [_selected_province] indexes the first county of a province
    that has none: before the login, choosing the placeholder entry,
    and after it, choosing a province without counties. *)
Theorem C8_empty_choices_raise :
  RRQueryDialog.populateprov Examples.no_provinces (Examples.rr_dialog [])
  = Raise (Exn AttributeError
             "'RRQueryDialog' object has no attribute 'default_prov'")
  /\ RRQueryDialog.populateprov Examples.provinces_and_counties
       (Examples.rr_dialog [])
     = Raise (Exn IndexError "list index out of range")
  /\ RRQueryDialog._selected_province Examples.no_provinces "Log in First"
       (Examples.rr_dialog [])
     = Raise (Exn IndexError "list index out of range")
  /\ RRQueryDialog._selected_province Examples.provinces_and_counties "YT"
       (Examples.rr_dialog Examples.conf_brant)
     = Raise (Exn IndexError "list index out of range")
  /\ (forall (T : RRQueryDialog.tables) (chosenprov : string)
        (d : RRQueryDialog.Dialog),
        Spec.counties_of T chosenprov = [] ->
        RRQueryDialog._selected_province T chosenprov d
        = Raise (Exn IndexError "list index out of range")).
Proof.
  repeat split; try reflexivity.
  apply selected_province_empty.
Qed.

Example populateprov_restores_stored_county :
  exists d',
    RRQueryDialog.populateprov Examples.provinces_and_counties
      (Examples.rr_dialog Examples.conf_brant) = Ok d'
    /\ GetStringSelection (RRQueryDialog._provchoice d') = "ON"
    /\ GetStringSelection (RRQueryDialog._countychoice d') = "Brant"
    /\ RRQueryDialog._ca_county_id d' = Some 20%Z
    /\ RRQueryDialog._loginbutton_enabled d' = false.
Proof. eexists. split; [reflexivity|]. repeat split; reflexivity. Qed.

End Selectors.

(** ** More on the traversal of the field tree *)

Section Traversal.

Import Py Wx Query Spec Channel.
Open Scope list_scope.

(** Whatever is validated below a window is one of the windows
    below it. *)
Lemma call_validations_within :
  forall (parent : Window) (id : nat),
    In id (snd (_call_validations parent)) -> In id (descendants parent).
Proof.
  fix IH 1. intros [i v children]. simpl.
  induction children as [|w rest IHrest]; simpl; [tauto|].
  intros id. destruct (Validate w); simpl.
  - specialize (IH w id). specialize (IHrest id).
    destruct (_call_validations w) as [b inner].
    match goal with
    | |- context [let '(r, later) := ?t in _] => destruct t as [r later]
    end.
    simpl in *. intros [H|H]; [left; exact H|].
    right. apply in_or_app. apply in_app_or in H as [H|H]; auto.
  - intros [H|[]]. left. exact H.
Qed.

(** X1: for every window, the dialog or one below it,
    [_call_validations] goes through its children in order and stops
    at the first child whose [Validate()] fails: it returns [False],
    its last call of [Validate()] is on that child, every earlier
    child has been validated, whatever else has been validated lies
    below one of the earlier children, and no child after the failing
    one is reached.  When no child fails it returns [True], has
    validated every child, and has validated nothing that is not
    below the window. *)
Theorem call_validations_stops_at_first_failure :
  (forall (parent : Window) (before : list Window) (bad : Window)
      (after : list Window),
      GetChildren parent = before ++ bad :: after ->
      forallb Validate before = true ->
      Validate bad = false ->
      fst (_call_validations parent) = false
      /\ exists earlier,
           snd (_call_validations parent) = earlier ++ [GetId bad]
           /\ (forall c, In c before -> In (GetId c) earlier)
           /\ (forall id, In id earlier ->
                 exists c, In c before
                           /\ (id = GetId c \/ In id (descendants c))))
  /\ (forall parent : Window,
        forallb Validate (GetChildren parent) = true ->
        fst (_call_validations parent) = true
        /\ (forall c, In c (GetChildren parent) ->
              In (GetId c) (snd (_call_validations parent)))
        /\ (forall id, In id (snd (_call_validations parent)) ->
              In id (descendants parent))).
Proof.
  split.
  - intros [i v children] before bad after Hc Hb Hbad. simpl in *. subst.
    induction before as [|w before IH]; simpl in *.
    + rewrite Hbad. simpl. split; [reflexivity|].
      exists []. split; [reflexivity|]. split; intros ? [].
    + apply andb_true_iff in Hb as [Hw Hb]. rewrite Hw. simpl.
      destruct (IH Hb) as [Hfst [earlier [Hsnd [Hin Hbelow]]]].
      pose proof (call_validations_within w) as Hwithin.
      destruct (_call_validations w) as [b inner].
      match goal with
      | |- context [let '(r, later) := ?t in _] => destruct t as [r later]
      end.
      simpl in *. subst r later.
      split; [reflexivity|].
      exists (GetId w :: inner ++ earlier).
      split; [simpl; now rewrite <- app_assoc|].
      split.
      * intros c [->|Hc]; [left; reflexivity|].
        right. apply in_or_app. right. now apply Hin.
      * intros id [<-|H].
        -- exists w. split; [now left | now left].
        -- apply in_app_or in H as [H|H].
           ++ exists w. split; [now left|]. right. now apply Hwithin.
           ++ destruct (Hbelow id H) as [c [Hc Hid]].
              exists c. split; [now right | exact Hid].
  - intros parent H. split; [|split].
    + rewrite call_validations_direct. exact H.
    + destruct parent as [i v children]. simpl in *.
      induction children as [|w rest IH]; simpl in *; [intros ? []|].
      apply andb_true_iff in H as [Hw H]. rewrite Hw. simpl.
      specialize (IH H).
      destruct (_call_validations w) as [b inner].
      match goal with
      | |- context [let '(r, later) := ?t in _] => destruct t as [r later]
      end.
      simpl in *. intros c [->|Hc]; [now left|].
      right. apply in_or_app. right. now apply IH.
    + apply call_validations_within.
Qed.

Lemma call_validations_stops_at_first_failure_witness :
  fst (_call_validations (self_window Examples.direct_failure)) = false
  /\ (exists earlier,
        snd (_call_validations (self_window Examples.direct_failure))
        = earlier ++ [2%nat]
        /\ (forall c, In c [Examples.leaf 1 true] -> In (GetId c) earlier)
        /\ (forall id, In id earlier ->
              exists c, In c [Examples.leaf 1 true]
                        /\ (id = GetId c \/ In id (descendants c)))).
Proof.
  destruct call_validations_stops_at_first_failure as [Hstop _].
  apply (Hstop (self_window Examples.direct_failure)
           [Examples.leaf 1 true] (Examples.leaf 2 false)
           [Examples.leaf 3 true]); reflexivity.
Defined.

(** X2: when every window of the tree validates, [_call_validations]
    returns [True] after calling [Validate()] once on every window
    below the dialog, parents before their children and siblings in
    order. *)
Theorem call_validations_preorder (parent : Window) :
  descendants_validate parent = true ->
  fst (_call_validations parent) = true
  /\ snd (_call_validations parent) = descendants parent.
Proof.
  intros H. rewrite (call_validations_depth_first parent H).
  split; reflexivity.
Qed.

Lemma call_validations_preorder_witness :
  fst (_call_validations (self_window Examples.all_valid)) = true
  /\ snd (_call_validations (self_window Examples.all_valid))
     = descendants (self_window Examples.all_valid).
Proof.
  apply (@call_validations_preorder (self_window Examples.all_valid)).
  reflexivity.
Defined.

End Traversal.

(** ** The progress channel end to end *)

Section ProgressChannel.

Import Py Wx Query Channel.
Open Scope string_scope.
Open Scope list_scope.

Lemma handle_all (events : list QueryThreadEvent) (d : Dialog) :
  let d' := fold_left handle events d in
  modal_result d'
  = (if existsb status_is_None events then Some ID_OK else modal_result d)
  /\ ok_enabled d' = ok_enabled d || existsb percent_is_100 events
  /\ gauge d' = last_percent events (gauge d)
  /\ statusmsg d' = last_label events (statusmsg d)
  /\ threads_started d' = threads_started d
  /\ self_window d' = self_window d
  /\ posted d' = posted d.
Proof.
  revert d. induction events as [|e events IH]; intros d; simpl.
  - rewrite orb_false_r. repeat split.
  - destruct (IH (handle d e)) as [Hm [Ho [Hg [Hs [Ht [Hw Hp]]]]]].
    rewrite Hm, Ho, Hg, Hs, Ht, Hw, Hp.
    clear IH Hm Ho Hg Hs Ht Hw Hp.
    destruct (existsb status_is_None events),
             (existsb percent_is_100 events);
      unfold handle, _got_status, status_is_None, percent_is_100;
      destruct e as [[s|] p]; simpl;
      destruct (Z.eqb p 100); simpl;
      destruct (ok_enabled d); simpl;
      repeat split; reflexivity.
Qed.

Lemma last_label_app (a b : list QueryThreadEvent) (current : string) :
  last_label (a ++ b) current = last_label b (last_label a current).
Proof.
  revert current. induction a as [|e a IH]; intros current; simpl;
    [reflexivity | apply IH].
Qed.

Lemma last_percent_app (a b : list QueryThreadEvent) (current : Z) :
  last_percent (a ++ b) current = last_percent b (last_percent a current).
Proof.
  revert current. induction a as [|e a IH]; intros current; simpl;
    [reflexivity | apply IH].
Qed.

Lemma deliver_all (d : Dialog) :
  modal_result (deliver d)
  = (if existsb status_is_None (posted d) then Some ID_OK else modal_result d)
  /\ ok_enabled (deliver d)
     = ok_enabled d || existsb percent_is_100 (posted d)
  /\ gauge (deliver d) = last_percent (posted d) (gauge d)
  /\ statusmsg (deliver d) = last_label (posted d) (statusmsg d)
  /\ threads_started (deliver d) = threads_started d
  /\ self_window (deliver d) = self_window d
  /\ posted (deliver d) = [].
Proof.
  exact (handle_all (posted d)
           {| self_window := self_window d; ok_enabled := ok_enabled d;
              gauge := gauge d; statusmsg := statusmsg d;
              modal_result := modal_result d;
              threads_started := threads_started d; posted := [] |}).
Qed.

Lemma run_result (r : radio) (gp : result params) (d : Dialog) :
  fst (run r gp d)
  = {| self_window := self_window d; ok_enabled := ok_enabled d;
       gauge := gauge d; statusmsg := statusmsg d;
       modal_result := modal_result d;
       threads_started := threads_started d;
       posted := posted d ++ run_events r gp |}.
Proof.
  unfold run, try_body, run_events.
  destruct gp as [p|e]; simpl.
  - rewrite fold_perform_posted.
    destruct (outcome (r p)) as [v|e]; simpl.
    + rewrite app_nil_r. reflexivity.
    + destruct (isinstance_Exception (exn_class e)); simpl.
      * unfold send_fail, fail, status_, PostEvent; simpl.
        rewrite <- app_assoc. reflexivity.
      * rewrite app_nil_r. reflexivity.
  - destruct (isinstance_Exception (exn_class e)); simpl.
    + reflexivity.
    + rewrite app_nil_r. destruct d; reflexivity.
Qed.

(** X3: after the pending events have been handled, the dialog has
    ended with [wx.ID_OK] exactly when one of them had the status
    None, whatever its percent and whatever came after it; otherwise
    it is as open as before.  The confirm control is enabled when it
    was enabled before or some event had percent 100: handling events
    never disables it. *)
Theorem deliver_closes_on_any_None_status (d : Dialog) :
  modal_result (deliver d)
  = (if existsb status_is_None (posted d) then Some ID_OK else modal_result d)
  /\ ok_enabled (deliver d)
     = ok_enabled d || existsb percent_is_100 (posted d).
Proof.
  destruct (deliver_all d) as [Hm [Ho _]]. split; assumption.
Qed.

(** X4: handling the pending events leaves the gauge at the percent of
    the last event and the status line at the text of the last event
    that has one; it empties the queue, starts no worker and leaves
    the window tree alone. *)
Theorem deliver_shows_last_event (d : Dialog) :
  gauge (deliver d) = last_percent (posted d) (gauge d)
  /\ statusmsg (deliver d) = last_label (posted d) (statusmsg d)
  /\ posted (deliver d) = []
  /\ threads_started (deliver d) = threads_started d
  /\ self_window (deliver d) = self_window d.
Proof.
  destruct (deliver_all d) as [_ [_ [Hg [Hs [Ht [Hw Hp]]]]]].
  repeat split; assumption.
Qed.

(** X5: the worker reaches the dialog through the event queue only.
    [run] appends to the queue the provider's reports, in the order
    they were made, followed by one failure event when an instance of
    [Exception] was raised and by nothing otherwise; the gauge, the
    status line, the confirm control, the modal result and the count
    of workers are as before.  When collecting the parameters raises,
    the provider is not run and reports nothing. *)
Theorem run_only_appends_events (r : radio) (gp : result params) (d : Dialog) :
  posted (fst (run r gp d)) = posted d ++ run_events r gp
  /\ ok_enabled (fst (run r gp d)) = ok_enabled d
  /\ gauge (fst (run r gp d)) = gauge d
  /\ statusmsg (fst (run r gp d)) = statusmsg d
  /\ modal_result (fst (run r gp d)) = modal_result d
  /\ threads_started (fst (run r gp d)) = threads_started d
  /\ self_window (fst (run r gp d)) = self_window d.
Proof. rewrite run_result. repeat split. Qed.

(** X6: a fetch that raises an instance of [Exception], seen from the
    dialog.  If no event before the failure has the status None, then
    once the events are handled the status line reads "Failed: "
    followed by the exception text, the gauge is at 100, the confirm
    control is enabled and the dialog is as open as it was. *)
Theorem failed_fetch_shows_reason
  (r : radio) (p : params) (d : Dialog) (e : exn) :
  outcome (r p) = Raise e ->
  isinstance_Exception (exn_class e) = true ->
  existsb status_is_None (posted d ++ map event_of (calls (r p))) = false ->
  let d' := deliver (fst (run r (Ok p) d)) in
  statusmsg d' = ("Failed: " ++ exn_str e)%string
  /\ gauge d' = 100%Z
  /\ ok_enabled d' = true
  /\ modal_result d' = modal_result d
  /\ posted d' = [].
Proof.
  intros Hout Hexc Hnone d'. subst d'.
  destruct (deliver_all (fst (run r (Ok p) d)))
    as [Hm [Ho [Hg [Hs [_ [_ Hp]]]]]].
  rewrite Hm, Ho, Hg, Hs, Hp. rewrite run_result. simpl.
  unfold run_events. rewrite Hout, Hexc.
  rewrite app_assoc.
  rewrite last_label_app, last_percent_app.
  rewrite (existsb_app status_is_None
             (posted d ++ map event_of (calls (r p)))), Hnone.
  rewrite (existsb_app percent_is_100
             (posted d ++ map event_of (calls (r p)))). simpl.
  rewrite !orb_true_r. repeat split.
Qed.

Lemma failed_fetch_shows_reason_witness :
  let d' := deliver (fst (run Examples.failing_radio (Ok [])
                            (_button ID_OK Examples.all_valid))) in
  statusmsg d' = ("Failed: " ++ "no such state")%string
  /\ gauge d' = 100%Z
  /\ ok_enabled d' = true
  /\ modal_result d' = modal_result (_button ID_OK Examples.all_valid)
  /\ posted d' = [].
Proof.
  apply (@failed_fetch_shows_reason Examples.failing_radio []
           (_button ID_OK Examples.all_valid)
           (Exn ValueError "no such state"));
    reflexivity.
Defined.

(** X7: a fetch that returns after [send_end] as its last report, seen
    from the dialog: once the events are handled the dialog has ended
    with [wx.ID_OK], the gauge is at 100 and the confirm control is
    enabled; no failure event is added. *)
Theorem finished_fetch_accepts
  (r : radio) (p : params) (d : Dialog) (earlier : list sink_call) (v : unit) :
  outcome (r p) = Ok v ->
  calls (r p) = earlier ++ [call_send_end] ->
  let d' := deliver (fst (run r (Ok p) d)) in
  snd (run r (Ok p) d) = None
  /\ modal_result d' = Some ID_OK
  /\ gauge d' = 100%Z
  /\ ok_enabled d' = true
  /\ statusmsg d'
     = last_label (posted d ++ map event_of earlier) (statusmsg d).
Proof.
  intros Hout Hcalls d'. subst d'.
  split.
  - unfold run, try_body. rewrite Hout. reflexivity.
  - destruct (deliver_all (fst (run r (Ok p) d)))
      as [Hm [Ho [Hg [Hs _]]]].
    rewrite Hm, Ho, Hg, Hs. rewrite run_result. simpl.
    unfold run_events. rewrite Hout, Hcalls, app_nil_r, map_app. simpl.
    rewrite app_assoc.
    rewrite last_label_app, last_percent_app, !existsb_app. simpl.
    rewrite !orb_true_r. repeat split.
Qed.

Lemma finished_fetch_accepts_witness :
  let d' := deliver (fst (run Examples.succeeding_radio (Ok [])
                            (_button ID_OK Examples.all_valid))) in
  snd (run Examples.succeeding_radio (Ok [])
         (_button ID_OK Examples.all_valid)) = None
  /\ modal_result d' = Some ID_OK
  /\ gauge d' = 100%Z
  /\ ok_enabled d' = true
  /\ statusmsg d'
     = last_label
         (posted (_button ID_OK Examples.all_valid)
            ++ map event_of [call_send_status (Some "Fetching") 40])
         (statusmsg (_button ID_OK Examples.all_valid)).
Proof.
  apply (@finished_fetch_accepts Examples.succeeding_radio []
           (_button ID_OK Examples.all_valid)
           [call_send_status (Some "Fetching") 40] tt);
    reflexivity.
Defined.

(** X8: a login never ends the dialog and never touches the confirm
    control.  [_populateca] reports "Attempting login..." and the
    callback reports "Failed: " with the exception text or "Logged
    in", all with percent 0: once handled, the status line shows the
    callback's text and the gauge is at 0, while the modal result and
    the confirm control are what they would be without the login.
    [populateprov] is queued unless the result is an instance of
    [Exception]. *)
Theorem login_reports_do_not_close (res : RRLogin.login_result)
  (st : RRLogin.state) :
  let before := deliver (RRLogin.dialog st) in
  let after := deliver (RRLogin.dialog (RRLogin._populateca res st)) in
  modal_result after = modal_result before
  /\ ok_enabled after = ok_enabled before
  /\ gauge after = 0%Z
  /\ statusmsg after
     = match res with
       | RRLogin.Failure e =>
           if isinstance_Exception (exn_class e)
           then ("Failed: " ++ exn_str e)%string else "Logged in"
       | RRLogin.Done => "Logged in"
       end
  /\ RRLogin.populateprov_queued (RRLogin._populateca res st)
     = match res with
       | RRLogin.Failure e =>
           if isinstance_Exception (exn_class e)
           then RRLogin.populateprov_queued st
           else S (RRLogin.populateprov_queued st)
       | RRLogin.Done => S (RRLogin.populateprov_queued st)
       end.
Proof.
  intros before after. subst before after.
  destruct (deliver_all (RRLogin.dialog st)) as [Hm [Ho _]].
  destruct (deliver_all (RRLogin.dialog (RRLogin._populateca res st)))
    as [Hm' [Ho' [Hg' [Hs' _]]]].
  rewrite Hm, Ho, Hm', Ho', Hg', Hs'.
  unfold RRLogin._populateca, RRLogin.cb.
  destruct res as [e|]; [destruct (isinstance_Exception (exn_class e))|];
    simpl;
    rewrite <- !app_assoc; simpl;
    rewrite !existsb_app, last_label_app, last_percent_app; simpl;
    rewrite !orb_false_r; repeat split.
Qed.

End ProgressChannel.

(** ** More on the number validators *)

Section ValidatorEffects.

Import Py Unicode Builtins Wx.
Open Scope string_scope.

(** X9: what [NumberValidator.Validate] does to its field.  It never
    changes the text.  It takes the focus and shows a message box
    exactly when it fails.  The background afterwards is pink on a
    failure and the window colour on a success, except that the empty
    text of an optional field is accepted without touching the control,
    so its background stays as it was. *)
Theorem number_validate_effects (c : NumberValidator.cls) (t : TextCtrl) :
  let v := NumberValidator.Validate c t in
  GetValue (window v) = GetValue t
  /\ focused v = negb (valid v)
  /\ (message_box v = None <-> valid v = true)
  /\ GetBackgroundColour (window v)
     = if valid v then
         if match GetValue t with [] => true | _ => false end
            && NumberValidator.OPTIONAL c
         then GetBackgroundColour t
         else SYS_COLOUR_WINDOW
       else pink.
Proof.
  unfold NumberValidator.Validate.
  destruct (match GetValue t with [] => true | _ => false end
            && NumberValidator.OPTIONAL c); simpl.
  - repeat split; reflexivity.
  - destruct (float (GetValue t)) as [x|]; simpl.
    + destruct (float_ge_int x (NumberValidator.MIN c)
                && float_le_int x (NumberValidator.MAX c)); simpl;
        repeat split; try reflexivity; discriminate.
    + repeat split; try reflexivity; discriminate.
Qed.

Lemma float_empty : float [] = None.
Proof. reflexivity. Qed.

(** X10: a text that [float] reads as a NaN, such as "nan", fails the
    range test of every number validator, whatever its bounds: both
    comparisons of the [assert] are false.  The field is rejected with
    the message for a number out of range, not with the one for text
    that is not a number. *)
Theorem number_rejects_nan (c : NumberValidator.cls) (t : TextCtrl) :
  float (GetValue t) = Some S754_nan ->
  valid (NumberValidator.Validate c t) = false
  /\ message_box (NumberValidator.Validate c t)
     = Some (NumberValidator.msg_AssertionError c)
  /\ GetBackgroundColour (window (NumberValidator.Validate c t)) = pink.
Proof.
  intros Hnan. unfold NumberValidator.Validate.
  destruct (GetValue t) as [|ch rest] eqn:Hv.
  - rewrite float_empty in Hnan. discriminate.
  - simpl. rewrite Hnan. unfold float_ge_int, float_le_int, SFleb.
    destruct (float_of_int (NumberValidator.MIN c));
      repeat split; reflexivity.
Qed.

Lemma number_rejects_nan_witness :
  float (GetValue (Examples.entered "nan")) = Some S754_nan
  /\ valid (NumberValidator.Validate NumberValidator.LatValidator
              (Examples.entered "nan")) = false
  /\ message_box (NumberValidator.Validate NumberValidator.LatValidator
                    (Examples.entered "nan"))
     = Some (NumberValidator.msg_AssertionError NumberValidator.LatValidator)
  /\ GetBackgroundColour
       (window (NumberValidator.Validate NumberValidator.LatValidator
                  (Examples.entered "nan"))) = pink.
Proof.
  split; [reflexivity|].
  apply (@number_rejects_nan NumberValidator.LatValidator
           (Examples.entered "nan")).
  reflexivity.
Defined.

End ValidatorEffects.

(** ** Stored province and county *)

Section StoredSelection.

Import Py Wx RRQueryDialog RRQueryDialogEvents.
Open Scope string_scope.
Open Scope list_scope.

Lemma to_int_not_nil (z : Z) :
  Z.to_int z <> Decimal.Pos Decimal.Nil /\ Z.to_int z <> Decimal.Neg Decimal.Nil.
Proof.
  destruct z; simpl; split; try discriminate;
    intros H; injection H as H;
    now apply DecimalPos.Unsigned.to_uint_nonnil in H.
Qed.

(** [str] tells integers apart. *)
Lemma str_of_int_inj (a b : Z) : str_of_int a = str_of_int b -> a = b.
Proof.
  unfold str_of_int. intros H.
  apply DecimalZ.to_int_inj.
  destruct (to_int_not_nil a) as [Ha1 Ha2], (to_int_not_nil b) as [Hb1 Hb2].
  pose proof (NilZero.isi _ Ha1 Ha2) as Ea.
  pose proof (NilZero.isi _ Hb1 Hb2) as Eb.
  rewrite H in Ea. rewrite Ea in Eb. now injection Eb.
Qed.

Lemma default_prov_loop_find (code : option string) (l : CA_PROVINCES_t)
  (current : option string) :
  default_prov_loop code l current
  = match find (fun kv => code_is code (snd kv)) l with
    | Some kv => Some (fst kv)
    | None => match l with [] => current | _ :: _ => Some "BC" end
    end.
Proof.
  revert current. induction l as [|[k v] l IH]; intros current; simpl;
    [reflexivity|].
  destruct code as [c|]; simpl.
  - destruct (String.eqb c (str_of_int v)); [reflexivity|].
    rewrite IH. simpl.
    destruct (find _ l); [reflexivity|]. destruct l; reflexivity.
  - rewrite IH. simpl.
    destruct (find _ l); [reflexivity|]. destruct l; reflexivity.
Qed.

Lemma default_county_loop_find (code : option string) (l : list county_row)
  (current : option county_key) :
  default_county_loop code l current
  = match find (fun row => code_is code (cid row)) l with
    | Some row => Some (Name (county row))
    | None => match l with [] => current | _ :: _ => Some (Int 0) end
    end.
Proof.
  revert current. induction l as [|row l IH]; intros current; simpl;
    [reflexivity|].
  destruct code as [c|]; simpl.
  - destruct (String.eqb c (str_of_int (cid row))); [reflexivity|].
    rewrite IH. simpl.
    destruct (find _ l); [reflexivity|]. destruct l; reflexivity.
  - rewrite IH. simpl.
    destruct (find _ l); [reflexivity|]. destruct l; reflexivity.
Qed.

(** X11: the defaults [getconfdefaults] computes.  The default
    province is the first province of the table whose id prints as the
    stored code; when no id does, it is "BC" if the table has any
    province and it is what the attribute held before if the table is
    empty.  The default county is found the same way from the county
    ids, with the integer 0 as the fallback.  When both attributes
    are assigned in the end the method returns, and neither selector
    nor the configuration nor the county id has changed; when
    [default_prov] is still unassigned, or else [default_county] is,
    the closing [LOG.debug] raises [AttributeError] naming it. *)
Theorem getconfdefaults_first_match (T : tables) (d : Dialog) :
  let p :=
    match find (fun kv =>
                  code_is (CONF.get "province" "radioreference" (conf d))
                    (snd kv)) (CA_PROVINCES T) with
    | Some kv => Some (fst kv)
    | None =>
        match CA_PROVINCES T with
        | [] => default_prov d
        | _ :: _ => Some "BC"
        end
    end in
  let c :=
    match find (fun row =>
                  code_is (CONF.get "county" "radioreference" (conf d))
                    (cid row)) (CA_COUNTIES T) with
    | Some row => Some (Name (county row))
    | None =>
        match CA_COUNTIES T with
        | [] => default_county d
        | _ :: _ => Some (Int 0)
        end
    end in
  getconfdefaults T d
  = match p, c with
    | Some _, Some _ =>
        Ok {| _provchoice := _provchoice d;
              _countychoice := _countychoice d;
              _loginbutton_enabled := _loginbutton_enabled d;
              default_prov := p;
              default_county := c;
              _ca_county_id := _ca_county_id d;
              conf := conf d |}
    | None, _ =>
        Raise (Exn AttributeError
                 "'RRQueryDialog' object has no attribute 'default_prov'")
    | Some _, None =>
        Raise (Exn AttributeError
                 "'RRQueryDialog' object has no attribute 'default_county'")
    end.
Proof.
  intros p c. subst p c. unfold getconfdefaults.
  cbn [default_prov default_county].
  rewrite default_prov_loop_find, default_county_loop_find.
  set (p := match find _ (CA_PROVINCES T) with
            | Some kv => Some (fst kv)
            | None => _
            end).
  set (c := match find _ (CA_COUNTIES T) with
            | Some row => Some (Name (county row))
            | None => _
            end).
  destruct p as [p'|]; [|reflexivity].
  destruct c as [c'|]; reflexivity.
Qed.

Example getconfdefaults_on_empty_tables :
  getconfdefaults Examples.no_provinces (Examples.rr_dialog Examples.conf_brant)
  = Raise (Exn AttributeError
             "'RRQueryDialog' object has no attribute 'default_prov'")
  /\ getconfdefaults
       {| CA_PROVINCES := [("ON", 2%Z)]; CA_COUNTIES := [] |}
       (Examples.rr_dialog Examples.conf_brant)
     = Raise (Exn AttributeError
                "'RRQueryDialog' object has no attribute 'default_county'")
  /\ exists d',
       getconfdefaults Examples.provinces_and_counties (Examples.rr_dialog [])
       = Ok d'
       /\ default_prov d' = Some "BC"
       /\ default_county d' = Some (Int 0).
Proof.
  split; [reflexivity|]. split; [reflexivity|].
  eexists. split; [reflexivity|]. split; reflexivity.
Qed.

(** X12: [_selected_county] never fails and keeps the attribute and
    the configuration in step: both hold the id of the first row of
    the whole county table that has the chosen name, whatever its
    province, and [0] when no row has that name; the integer key of
    the fallback default always gives [0].  The selectors are left
    alone. *)
Theorem selected_county_stores_first_id_by_name :
  (forall (T : tables) (k : county_key) (d : Dialog),
      let id := match find (fun row => name_eq (county row) k)
                        (CA_COUNTIES T) with
                | Some row => cid row
                | None => 0%Z
                end in
      _ca_county_id (_selected_county T k d) = Some id
      /\ CONF.get "county" "radioreference" (conf (_selected_county T k d))
         = Some (str_of_int id)
      /\ CONF.get "province" "radioreference" (conf (_selected_county T k d))
         = CONF.get "province" "radioreference" (conf d)
      /\ _countychoice (_selected_county T k d) = _countychoice d
      /\ _provchoice (_selected_county T k d) = _provchoice d)
  /\ (forall (T : tables) (n : Z) (d : Dialog),
        _ca_county_id (_selected_county T (Int n) d) = Some 0%Z).
Proof.
  split.
  - intros T k d. simpl. rewrite find_county_id_find. repeat split.
  - intros T n d. simpl. f_equal.
    induction (CA_COUNTIES T) as [|row rows IH]; simpl; [reflexivity|exact IH].
Qed.

Lemma conf_get_set (key section key' value section' : string) (c : CONF.t) :
  CONF.get key section (CONF.set key' value section' c)
  = if String.eqb section' section && String.eqb key' key
    then Some value else CONF.get key section c.
Proof. reflexivity. Qed.

Lemma store_province_get (l : CA_PROVINCES_t) (P key section : string)
  (c : CONF.t) :
  CONF.get key section (store_province l P c)
  = match find (fun kv => String.eqb (fst kv) P) l with
    | Some kv =>
        if String.eqb "radioreference" section && String.eqb "province" key
        then Some (str_of_int (snd kv)) else CONF.get key section c
    | None => CONF.get key section c
    end.
Proof.
  induction l as [|[name id] l IH]; simpl; [reflexivity|].
  destruct (String.eqb name P); [reflexivity | exact IH].
Qed.

(** X13: what [_selected_province] stores when it succeeds.  The id of
    the chosen province is stored under "province" when the table
    knows the province, and the stored province is left as it was when
    it does not; apart from "province" and "county" of the section
    "radioreference" no stored value changes.  The province selector,
    the login button and the defaults are not touched. *)
Theorem selected_province_stores_province_id
  (T : tables) (chosenprov : string) (d d' : Dialog) :
  _selected_province T chosenprov d = Ok d' ->
  CONF.get "province" "radioreference" (conf d')
  = match find (fun kv => String.eqb (fst kv) chosenprov) (CA_PROVINCES T) with
    | Some kv => Some (str_of_int (snd kv))
    | None => CONF.get "province" "radioreference" (conf d)
    end
  /\ (forall key section : string,
        String.eqb "radioreference" section
        && (String.eqb "province" key || String.eqb "county" key) = false ->
        CONF.get key section (conf d') = CONF.get key section (conf d))
  /\ _provchoice d' = _provchoice d
  /\ _loginbutton_enabled d' = _loginbutton_enabled d
  /\ default_prov d' = default_prov d
  /\ default_county d' = default_county d.
Proof.
  unfold _selected_province.
  destruct (GetItems
              (append_counties (CA_COUNTIES T) chosenprov
                 (Clear (_countychoice d)))) as [|first others];
    [discriminate|].
  intros H. injection H as <-.
  set (id := find_county_id (CA_COUNTIES T) (Name first)).
  assert (Hconf :
            conf (_selected_county T (Name first)
                    {| _provchoice := _provchoice d;
                       _countychoice :=
                         append_counties (CA_COUNTIES T) chosenprov
                           (Clear (_countychoice d));
                       _loginbutton_enabled := _loginbutton_enabled d;
                       default_prov := default_prov d;
                       default_county := default_county d;
                       _ca_county_id := _ca_county_id d;
                       conf := store_province (CA_PROVINCES T) chosenprov
                                 (conf d) |})
            = CONF.set "county" (str_of_int id) "radioreference"
                (store_province (CA_PROVINCES T) chosenprov (conf d)))
    by reflexivity.
  rewrite Hconf.
  split; [|split; [|repeat split]].
  - rewrite conf_get_set, store_province_get.
    change (String.eqb "radioreference" "radioreference"
            && String.eqb "county" "province") with false.
    change (String.eqb "radioreference" "radioreference"
            && String.eqb "province" "province") with true.
    cbv iota. destruct (find _ (CA_PROVINCES T)); reflexivity.
  - intros key section Hk.
    rewrite conf_get_set, store_province_get.
    destruct (String.eqb "radioreference" section); cbn [andb] in *.
    + apply orb_false_iff in Hk as [Hp Hc]. rewrite Hp, Hc.
      destruct (find _ (CA_PROVINCES T)); reflexivity.
    + destruct (find _ (CA_PROVINCES T)); reflexivity.
Qed.

Lemma selected_province_stores_province_id_witness :
  exists d',
    _selected_province Examples.provinces_and_counties "QC"
      (Examples.rr_dialog Examples.conf_brant) = Ok d'
    /\ CONF.get "province" "radioreference" (conf d') = Some "3".
Proof.
  eexists. split; [reflexivity|].
  destruct (@selected_province_stores_province_id
              Examples.provinces_and_counties "QC"
              (Examples.rr_dialog Examples.conf_brant) _ eq_refl)
    as [H _].
  exact H.
Defined.

Lemma find_province_by_code (l : CA_PROVINCES_t) (P : string) (pid : Z) :
  In (P, pid) l -> NoDup (map snd l) ->
  find (fun kv => code_is (Some (str_of_int pid)) (snd kv)) l = Some (P, pid).
Proof.
  induction l as [|[k v] l IH]; simpl; [contradiction|].
  intros Hin Hnd. inversion Hnd as [|? ? Hnotin Hnd']; subst.
  destruct (String.eqb_spec (str_of_int pid) (str_of_int v)) as [E|E].
  - apply str_of_int_inj in E. subst v.
    destruct Hin as [Heq|Hin]; [now rewrite Heq|].
    exfalso. apply Hnotin. change pid with (snd (P, pid)).
    now apply in_map.
  - destruct Hin as [Heq|Hin]; [injection Heq as -> ->; contradiction|].
    now apply IH.
Qed.

Lemma find_province_by_name (l : CA_PROVINCES_t) (P : string) (pid : Z) :
  In (P, pid) l -> NoDup (map fst l) ->
  find (fun kv => String.eqb (fst kv) P) l = Some (P, pid).
Proof.
  induction l as [|[k v] l IH]; simpl; [contradiction|].
  intros Hin Hnd. inversion Hnd as [|? ? Hnotin Hnd']; subst.
  destruct (String.eqb_spec k P) as [E|E].
  - subst k.
    destruct Hin as [Heq|Hin]; [now rewrite Heq|].
    exfalso. apply Hnotin. change P with (fst (P, pid)).
    now apply in_map.
  - destruct Hin as [Heq|Hin]; [injection Heq as -> ->; contradiction|].
    now apply IH.
Qed.

Lemma find_county_by_code (l : list county_row) (r : county_row) :
  In r l -> NoDup (map cid l) ->
  find (fun row => code_is (Some (str_of_int (cid r))) (cid row)) l = Some r.
Proof.
  induction l as [|row l IH]; simpl; [contradiction|].
  intros Hin Hnd. inversion Hnd as [|? ? Hnotin Hnd']; subst.
  destruct (String.eqb_spec (str_of_int (cid r)) (str_of_int (cid row)))
    as [E|E].
  - apply str_of_int_inj in E.
    destruct Hin as [Heq|Hin]; [now rewrite Heq|].
    exfalso. apply Hnotin. rewrite <- E. now apply in_map.
  - destruct Hin as [Heq|Hin]; [subst row; contradiction|].
    now apply IH.
Qed.

Lemma FindString_In (x : string) (items : list string) :
  In x items ->
  exists i, FindString x items = Some i /\ nth i items EmptyString = x.
Proof.
  intros Hin. apply FindString_mem.
  unfold RepeaterBookQueryDialog.mem. apply existsb_exists.
  exists x. split; [exact Hin | apply String.eqb_refl].
Qed.

Lemma SetStringSelection_In (x : string) (c : Choice) :
  In x (GetItems c) ->
  GetStringSelection (SetStringSelection x c) = x
  /\ GetItems (SetStringSelection x c) = GetItems c.
Proof.
  intros Hin. destruct (@FindString_In _ _ Hin) as [i [Hi Hn]].
  unfold SetStringSelection. rewrite Hi.
  unfold GetStringSelection. simpl. split; [exact Hn | reflexivity].
Qed.

Lemma populateprov_restores
  (T : tables) (d : Dialog) (P : string) (pid : Z) (r : county_row) :
  NoDup (map fst (CA_PROVINCES T)) ->
  NoDup (map snd (CA_PROVINCES T)) ->
  NoDup (map cid (CA_COUNTIES T)) ->
  In (P, pid) (CA_PROVINCES T) ->
  In r (CA_COUNTIES T) ->
  prov r = P ->
  find_county_id (CA_COUNTIES T) (Name (county r)) = cid r ->
  CONF.get "province" "radioreference" (conf d) = Some (str_of_int pid) ->
  CONF.get "county" "radioreference" (conf d) = Some (str_of_int (cid r)) ->
  exists d',
    populateprov T d = Ok d'
    /\ GetItems (_provchoice d') = map fst (CA_PROVINCES T)
    /\ GetStringSelection (_provchoice d') = P
    /\ GetItems (_countychoice d') = Spec.counties_of T P
    /\ GetStringSelection (_countychoice d') = county r
    /\ _ca_county_id d' = Some (cid r)
    /\ CONF.get "province" "radioreference" (conf d') = Some (str_of_int pid)
    /\ CONF.get "county" "radioreference" (conf d') = Some (str_of_int (cid r))
    /\ _loginbutton_enabled d' = false.
Proof.
  intros Hnames Hpids Hcids HinP Hinr Hprov Hbyname Hpcode Hccode.
  assert (HPname : In P (map fst (CA_PROVINCES T))).
  { change P with (fst (P, pid)). now apply in_map. }
  assert (Hcounty : In (county r) (Spec.counties_of T P)).
  { unfold Spec.counties_of. apply in_map. apply filter_In.
    split; [exact Hinr|]. rewrite Hprov. apply String.eqb_refl. }
  destruct (Spec.counties_of T P) as [|first others] eqn:Hcs;
    [contradiction|].
  unfold populateprov.
  (* the defaults read from the configuration *)
  assert (Hgcd :
            getconfdefaults T
              (set_provchoice
                 (SetItems (map fst (CA_PROVINCES T)) (_provchoice d)) d)
            = Ok {| _provchoice :=
                      SetItems (map fst (CA_PROVINCES T)) (_provchoice d);
                    _countychoice := _countychoice d;
                    _loginbutton_enabled := _loginbutton_enabled d;
                    default_prov := Some P;
                    default_county := Some (Name (county r));
                    _ca_county_id := _ca_county_id d;
                    conf := conf d |}).
  { unfold getconfdefaults.
    cbn [default_prov default_county conf set_provchoice _provchoice
           _countychoice _loginbutton_enabled _ca_county_id].
    rewrite default_prov_loop_find, Hpcode.
    rewrite (@find_province_by_code _ _ _ HinP Hpids).
    rewrite default_county_loop_find, Hccode.
    rewrite (@find_county_by_code _ _ Hinr Hcids).
    reflexivity. }
  rewrite Hgcd. cbn [bind default_prov getattr].
  unfold _selected_province. rewrite selected_province_choice.
  cbn [GetItems]. rewrite Hcs.
  cbn [bind _selected_county default_county set_provchoice getattr].
  eexists. split; [reflexivity|].
  cbn [loginbutton_Enable _selected_county set_countychoice
         _provchoice _countychoice _ca_county_id conf _loginbutton_enabled
         getconfdefaults set_provchoice].
  destruct (@SetStringSelection_In P
              (SetItems (map fst (CA_PROVINCES T)) (_provchoice d)) HPname)
    as [HselP HitemsP].
  destruct (@SetStringSelection_In (county r)
              {| GetItems := first :: others; GetSelection := None |} Hcounty)
    as [Hselc Hitemsc].
  rewrite HselP, HitemsP, Hselc, Hitemsc, Hbyname.
  split; [reflexivity|]. split; [reflexivity|]. split; [reflexivity|].
  split; [reflexivity|]. split; [reflexivity|].
  unfold CONF.set_int.
  rewrite !conf_get_set, store_province_get.
  rewrite (@find_province_by_name _ _ _ HinP Hnames).
  repeat split.
Qed.

(** X14: the stored province and county come back at the next login.
    Take tables whose province names, province ids and county ids are
    each distinct, a province and one of its counties, and a
    configuration holding their two ids as [_selected_province] and
    [_selected_county] store them.  If looking the county up by name
    gives back its id, [populateprov] succeeds: the province selector
    lists the provinces in table order with that province selected,
    the county selector lists the counties of the province with that
    county selected, the county id in use and the two stored ids are
    the same as before, and the login button is disabled. *)
Theorem populateprov_restores_stored_selection
  (T : tables) (d : Dialog) (P : string) (pid : Z) (r : county_row) :
  NoDup (map fst (CA_PROVINCES T)) ->
  NoDup (map snd (CA_PROVINCES T)) ->
  NoDup (map cid (CA_COUNTIES T)) ->
  In (P, pid) (CA_PROVINCES T) ->
  In r (CA_COUNTIES T) ->
  prov r = P ->
  find_county_id (CA_COUNTIES T) (Name (county r)) = cid r ->
  CONF.get "province" "radioreference" (conf d) = Some (str_of_int pid) ->
  CONF.get "county" "radioreference" (conf d) = Some (str_of_int (cid r)) ->
  exists d',
    populateprov T d = Ok d'
    /\ GetItems (_provchoice d') = map fst (CA_PROVINCES T)
    /\ GetStringSelection (_provchoice d') = P
    /\ GetItems (_countychoice d') = Spec.counties_of T P
    /\ GetStringSelection (_countychoice d') = county r
    /\ _ca_county_id d' = Some (cid r)
    /\ CONF.get "province" "radioreference" (conf d') = Some (str_of_int pid)
    /\ CONF.get "county" "radioreference" (conf d') = Some (str_of_int (cid r))
    /\ _loginbutton_enabled d' = false.
Proof. apply populateprov_restores. Qed.

Lemma populateprov_restores_stored_selection_witness :
  exists d',
    populateprov Examples.provinces_and_counties
      (Examples.rr_dialog Examples.conf_brant) = Ok d'
    /\ GetItems (_provchoice d') = ["ON"; "QC"; "YT"]
    /\ GetStringSelection (_provchoice d') = "ON"
    /\ GetItems (_countychoice d') = ["Algoma"; "Brant"]
    /\ GetStringSelection (_countychoice d') = "Brant"
    /\ _ca_county_id d' = Some 20%Z
    /\ CONF.get "province" "radioreference" (conf d') = Some "2"
    /\ CONF.get "county" "radioreference" (conf d') = Some "20"
    /\ _loginbutton_enabled d' = false.
Proof.
  assert (Hnames : NoDup ["ON"; "QC"; "YT"]).
  { repeat constructor; simpl; intuition discriminate. }
  assert (Hpids : NoDup [2; 3; 4]%Z).
  { repeat constructor; simpl; intuition discriminate. }
  assert (Hcids : NoDup [10; 30; 20]%Z).
  { repeat constructor; simpl; intuition discriminate. }
  exact (@populateprov_restores_stored_selection
           Examples.provinces_and_counties
           (Examples.rr_dialog Examples.conf_brant) "ON" 2%Z
           {| col0 := 2; prov := "ON"; cid := 20; county := "Brant" |}
           Hnames Hpids Hcids
           (or_introl eq_refl) (or_intror (or_intror (or_introl eq_refl)))
           eq_refl eq_refl eq_refl eq_refl).
Defined.

(** X15: a province and a county chosen in one session are restored
    in the next.  Take tables whose province names, province ids and
    county ids are each distinct; let the province handler run
    with the province selected, then the county handler with one of
    its counties selected.  Both succeed, and on any dialog that
    starts from the configuration they leave behind, [populateprov]
    selects that province and that county again and uses the same
    county id. *)
Theorem stored_selection_round_trip
  (T : tables) (d : Dialog) (P : string) (pid : Z) (r : county_row) :
  NoDup (map fst (CA_PROVINCES T)) ->
  NoDup (map snd (CA_PROVINCES T)) ->
  NoDup (map cid (CA_COUNTIES T)) ->
  In (P, pid) (CA_PROVINCES T) ->
  In r (CA_COUNTIES T) ->
  prov r = P ->
  find_county_id (CA_COUNTIES T) (Name (county r)) = cid r ->
  GetStringSelection (_provchoice d) = P ->
  exists d1,
    selected_province T d = Ok d1
    /\ GetItems (_countychoice d1) = Spec.counties_of T P
    /\ let d2 :=
         selected_county T
           (set_countychoice
              (SetStringSelection (county r) (_countychoice d1)) d1) in
       _ca_county_id d2 = Some (cid r)
       /\ forall d0 : Dialog,
            conf d0 = conf d2 ->
            exists d',
              populateprov T d0 = Ok d'
              /\ GetStringSelection (_provchoice d') = P
              /\ GetStringSelection (_countychoice d') = county r
              /\ _ca_county_id d' = Some (cid r).
Proof.
  intros Hnames Hpids Hcids HinP Hinr Hprov Hbyname Hsel.
  assert (Hcounty : In (county r) (Spec.counties_of T P)).
  { unfold Spec.counties_of. apply in_map. apply filter_In.
    split; [exact Hinr|]. rewrite Hprov. apply String.eqb_refl. }
  unfold selected_province. rewrite Hsel.
  unfold _selected_province. rewrite selected_province_choice.
  cbn [GetItems].
  destruct (Spec.counties_of T P) as [|first others] eqn:Hcs;
    [contradiction|].
  eexists. split; [reflexivity|].
  split; [reflexivity|].
  cbn [_selected_county _countychoice set_countychoice selected_county
         _ca_county_id conf].
  destruct (@SetStringSelection_In (county r)
              {| GetItems := first :: others; GetSelection := None |} Hcounty)
    as [Hselc _].
  rewrite Hselc, Hbyname.
  split; [reflexivity|].
  intros d0 Hconf.
  destruct (@populateprov_restores T d0 P pid r Hnames Hpids Hcids HinP Hinr
              Hprov Hbyname) as [d' [Hok [_ [HP [_ [Hc [Hid _]]]]]]].
  - rewrite Hconf. unfold CONF.set_int.
    rewrite !conf_get_set, store_province_get.
    now rewrite (@find_province_by_name _ _ _ HinP Hnames).
  - rewrite Hconf. unfold CONF.set_int. now rewrite conf_get_set.
  - exists d'. repeat split; assumption.
Qed.

Lemma stored_selection_round_trip_witness :
  exists d1,
    selected_province Examples.provinces_and_counties
      (set_provchoice
         {| GetItems := ["ON"; "QC"; "YT"]; GetSelection := Some 0%nat |}
         (Examples.rr_dialog [])) = Ok d1
    /\ GetItems (_countychoice d1) = ["Algoma"; "Brant"]
    /\ _ca_county_id
         (selected_county Examples.provinces_and_counties
            (set_countychoice
               (SetStringSelection "Brant" (_countychoice d1)) d1))
       = Some 20%Z.
Proof.
  assert (Hnames : NoDup ["ON"; "QC"; "YT"]).
  { repeat constructor; simpl; intuition discriminate. }
  assert (Hpids : NoDup [2; 3; 4]%Z).
  { repeat constructor; simpl; intuition discriminate. }
  assert (Hcids : NoDup [10; 30; 20]%Z).
  { repeat constructor; simpl; intuition discriminate. }
  destruct (@stored_selection_round_trip
              Examples.provinces_and_counties
              (set_provchoice
                 {| GetItems := ["ON"; "QC"; "YT"];
                    GetSelection := Some 0%nat |}
                 (Examples.rr_dialog [])) "ON" 2%Z
              {| col0 := 2; prov := "ON"; cid := 20; county := "Brant" |}
              Hnames Hpids Hcids
              (or_introl eq_refl) (or_intror (or_intror (or_introl eq_refl)))
              eq_refl eq_refl eq_refl)
    as [d1 [H1 [H2 [H3 _]]]].
  exists d1. split; [exact H1|]. split; [exact H2 | exact H3].
Defined.

End StoredSelection.

(** ** The state list of the RepeaterBook dialog *)

Section StateList.

Import Py Wx RepeaterBookQueryDialog.
Open Scope string_scope.

(** X16: [_state_selected] raises [KeyError] when [STATES] has no
    entry for the selected country, which includes the empty string
    of a country selector without a selection; the text of the error
    is [repr] of the country: the name in apostrophes, or in double
    quotes when the name has an apostrophe and no double quote.  When
    the handler succeeds it depends on the selected country and the
    configuration only: the states shown before play no part, and
    running the handler again changes nothing. *)
Theorem state_selected_missing_country_and_rerun :
  (forall (STATES : STATES_t) (c : CONF.t) (d : Dialog),
      getitem STATES (GetStringSelection (_country d)) = None ->
      _state_selected STATES c d
      = Raise (Exn KeyError (repr_str (GetStringSelection (_country d)))))
  /\ (forall (STATES : STATES_t) (c : CONF.t) (d d' : Dialog),
        _state_selected STATES c d = Ok d' ->
        _state_selected STATES c d' = Ok d'
        /\ forall other : Choice,
             _state_selected STATES c
               {| _country := _country d; _state := other |} = Ok d')
  /\ map repr_str [""; "Canada"; "Cote d'Ivoire"]
     = [ String apostrophe (String apostrophe "");
         String apostrophe ("Canada" ++ String apostrophe "");
         String double_quote ("Cote d'Ivoire" ++ String double_quote "") ].
Proof.
  split; [|split].
  - intros STATES c d H. unfold _state_selected. rewrite H. reflexivity.
  - intros STATES c d d'. unfold _state_selected.
    destruct (getitem STATES (GetStringSelection (_country d)))
      as [states|] eqn:Hget; [|discriminate].
    intros H. injection H as <-. simpl. rewrite Hget.
    split; [reflexivity|]. intros other. reflexivity.
  - reflexivity.
Qed.

Lemma state_selected_missing_country_and_rerun_witness :
  _state_selected Examples.STATES []
    {| _country := {| GetItems := ["Canada"; "Mexico"]; GetSelection := None |};
       _state := {| GetItems := []; GetSelection := None |} |}
  = Raise (Exn KeyError "''")
  /\ exists d',
       _state_selected Examples.STATES [("repeaterbook", "state", "Quebec")]
         Examples.rb_dialog = Ok d'
       /\ _state_selected Examples.STATES [("repeaterbook", "state", "Quebec")]
            d' = Ok d'.
Proof.
  destruct state_selected_missing_country_and_rerun as [Hmissing [Hrerun _]].
  split.
  - apply (Hmissing Examples.STATES []
             {| _country := {| GetItems := ["Canada"; "Mexico"];
                               GetSelection := None |};
                _state := {| GetItems := []; GetSelection := None |} |}).
    reflexivity.
  - eexists. split; [reflexivity|].
    apply (Hrerun Examples.STATES [("repeaterbook", "state", "Quebec")]
             Examples.rb_dialog). reflexivity.
Defined.

End StateList.

(** ** What is handed to the worker and what a later session finds *)

Section Parameters.

Import Py Wx Forms.
Open Scope string_scope.
Open Scope list_scope.

(** X17: in the DMR-MARC dialog the parameters are the values stored
    at submit time.  After [do_query] has stored the three texts,
    [get_params] returns exactly them, one worker has been started,
    and a dialog built later from that configuration shows the same
    three texts. *)
Theorem dmrmarc_params_are_submitted_values
  (f : DMRMARC) (conf : CONF.t) (d : Query.Dialog) :
  let after := DMRMARC_do_query f conf d in
  DMRMARC_get_params (fst after)
  = [ ("city", Some (dmr_city f)); ("state", Some (dmr_state f));
      ("country", Some (dmr_country f)) ]
  /\ DMRMARC_build (fst after) = f
  /\ Query.threads_started (snd after) = S (Query.threads_started d)
  /\ (forall key section : string,
        String.eqb section "dmrmarc" = false ->
        CONF.get key section (fst after) = CONF.get key section conf).
Proof.
  cbv zeta. unfold DMRMARC_do_query. cbn [fst snd].
  split; [reflexivity|]. split; [destruct f; reflexivity|].
  split; [reflexivity|].
  intros key section H. rewrite !conf_get_set.
  rewrite String.eqb_sym in H. rewrite H. reflexivity.
Qed.

Lemma mem_In (x : string) (l : list string) :
  In x l -> RepeaterBookQueryDialog.mem x l = true.
Proof.
  intros H. unfold RepeaterBookQueryDialog.mem. apply existsb_exists.
  exists x. split; [exact H | apply String.eqb_refl].
Qed.

(** X18: the RepeaterBook dialog comes back as it was submitted.  Let
    the selected country be one of the countries offered with an entry
    in [STATES], and the selected state be one of that country's
    states, or none.  After [do_query] has stored the form, [build]
    with the resulting configuration succeeds and gives the same
    country, the states of that country with the same state selected,
    and the same latitude, longitude and distance texts. *)
Theorem repeaterbook_build_restores_submitted_form
  (COUNTRIES : list string) (STATES : RepeaterBookQueryDialog.STATES_t)
  (f : RepeaterBook) (conf : CONF.t) (d : Query.Dialog)
  (states : list string) :
  let C := GetStringSelection
             (RepeaterBookQueryDialog._country (rb_selectors f)) in
  let S := GetStringSelection
             (RepeaterBookQueryDialog._state (rb_selectors f)) in
  C <> "" ->
  In C COUNTRIES ->
  RepeaterBookQueryDialog.getitem STATES C = Some states ->
  S = "" \/ In S states ->
  exists f',
    RepeaterBook_build COUNTRIES STATES (fst (RepeaterBook_do_query f conf d))
    = Ok f'
    /\ GetItems (RepeaterBookQueryDialog._country (rb_selectors f')) = COUNTRIES
    /\ GetItems (RepeaterBookQueryDialog._state (rb_selectors f')) = states
    /\ RepeaterBook_get_params f' = RepeaterBook_get_params f.
Proof.
  intros C S HC HinC Hstates HS. subst C S.
  unfold RepeaterBook_build, RepeaterBook_do_query.
  cbn [fst].
  set (C := GetStringSelection
              (RepeaterBookQueryDialog._country (rb_selectors f))) in *.
  set (S := GetStringSelection
              (RepeaterBookQueryDialog._state (rb_selectors f))) in *.
  change (CONF.get "country" "repeaterbook" (CONF.set "country" C "repeaterbook" _))
    with (Some C).
  cbv beta iota.
  apply String.eqb_neq in HC. rewrite HC, (mem_In _ _ HinC). cbn [negb andb].
  destruct (@SetStringSelection_In C
              {| GetItems := COUNTRIES; GetSelection := None |} HinC)
    as [HselC HitemsC].
  unfold RepeaterBookQueryDialog._state_selected.
  cbn [RepeaterBookQueryDialog._country]. rewrite HselC, Hstates.
  change (CONF.get "state" "repeaterbook"
            (CONF.set "country" C "repeaterbook"
               (CONF.set "state" S "repeaterbook" _)))
    with (Some S).
  cbn [bind].
  eexists. split; [reflexivity|].
  unfold RepeaterBook_get_params.
  cbn [rb_selectors rb_lat rb_lon rb_dist
         RepeaterBookQueryDialog._country RepeaterBookQueryDialog._state].
  rewrite HselC, HitemsC.
  assert (HselS :
            GetStringSelection
              (if negb (String.eqb S "") && RepeaterBookQueryDialog.mem S states
               then SetStringSelection S
                      (SetItems states {| GetItems := []; GetSelection := None |})
               else SetItems states {| GetItems := []; GetSelection := None |})
            = S
            /\ GetItems
                 (if negb (String.eqb S "")
                     && RepeaterBookQueryDialog.mem S states
                  then SetStringSelection S
                         (SetItems states
                            {| GetItems := []; GetSelection := None |})
                  else SetItems states
                         {| GetItems := []; GetSelection := None |})
               = states).
  { destruct (String.eqb_spec S "") as [E|E]; cbn [negb andb].
    - split; [now rewrite E | reflexivity].
    - destruct HS as [HS|HS]; [contradiction|].
      rewrite (mem_In _ _ HS).
      destruct (@SetStringSelection_In S
                  (SetItems states {| GetItems := []; GetSelection := None |})
                  HS) as [H1 H2].
      split; assumption. }
  destruct HselS as [HselS HitemsS].
  rewrite HselS, HitemsS.
  repeat split.
Qed.

Lemma repeaterbook_build_restores_submitted_form_witness :
  let f :=
    {| rb_selectors :=
         {| RepeaterBookQueryDialog._country :=
              {| GetItems := ["Canada"; "Mexico"]; GetSelection := Some 0%nat |};
            RepeaterBookQueryDialog._state :=
              {| GetItems := ["Alberta"; "Ontario"; "Quebec"];
                 GetSelection := Some 2%nat |} |};
       rb_lat := "45.5"; rb_lon := "-73.6"; rb_dist := "" |} in
  exists f',
    RepeaterBook_build ["Canada"; "Mexico"] Examples.STATES
      (fst (RepeaterBook_do_query f [] (Examples.dialog_of []))) = Ok f'
    /\ GetItems (RepeaterBookQueryDialog._country (rb_selectors f'))
       = ["Canada"; "Mexico"]
    /\ GetItems (RepeaterBookQueryDialog._state (rb_selectors f'))
       = ["Alberta"; "Ontario"; "Quebec"]
    /\ RepeaterBook_get_params f'
       = [ ("country", "Canada"); ("state", "Quebec"); ("lat", "45.5");
           ("lon", "-73.6"); ("dist", "") ].
Proof.
  intros f.
  apply (@repeaterbook_build_restores_submitted_form
           ["Canada"; "Mexico"] Examples.STATES f []
           (Examples.dialog_of []) ["Alberta"; "Ontario"; "Quebec"]).
  - discriminate.
  - left. reflexivity.
  - reflexivity.
  - right. right. right. left. reflexivity.
Defined.

(** X19: the parameters of the RadioReference dialog.  On the first
    tab they are the ZIP text and "US".  On any other tab they are
    "CA" and the county id in use, printed as [_selected_county]
    stored it, so the worker queries the county the configuration
    remembers.  When no county id was ever set, [get_params] raises
    [AttributeError] inside the worker: the provider is not run and
    the dialog receives the failure event with that reason. *)
Theorem rr_params_follow_stored_county :
  (forall (uszip : string) (d : RRQueryDialog.Dialog),
      RR_get_params 0 uszip d = Ok [("zipcounty", uszip); ("country", "US")])
  /\ (forall (T : RRQueryDialog.tables) (k : RRQueryDialog.county_key)
        (d : RRQueryDialog.Dialog) (tab : Z) (uszip : string),
        tab <> 0%Z ->
        exists v,
          RR_get_params tab uszip (RRQueryDialog._selected_county T k d)
          = Ok [("zipcounty", v); ("country", "CA")]
          /\ CONF.get "county" "radioreference"
               (RRQueryDialog.conf (RRQueryDialog._selected_county T k d))
             = Some v)
  /\ (forall (r : Query.radio) (tab : Z) (uszip : string)
        (d : RRQueryDialog.Dialog) (dlg : Query.Dialog),
        tab <> 0%Z ->
        RRQueryDialog._ca_county_id d = None ->
        Query.run r (RR_get_params tab uszip d) dlg
        = (Query.PostEvent
             {| Query.status :=
                  Some "Failed: 'RRQueryDialog' object has no attribute '_ca_county_id'";
                Query.percent := 100 |} dlg,
           None)).
Proof.
  split; [|split].
  - reflexivity.
  - intros T k d tab uszip Htab. unfold RR_get_params.
    apply Z.eqb_neq in Htab. rewrite Htab.
    eexists. split; reflexivity.
  - intros r tab uszip d dlg Htab Hnone. unfold RR_get_params.
    apply Z.eqb_neq in Htab. rewrite Htab, Hnone. reflexivity.
Qed.

End Parameters.
